(** * nexus-simple-router: the bootstrap sequence of [main.go]

    A shallow embedding of [src/main.go]: the package-level variables, the
    registration and parsing of the command-line flags, the start-up
    sequence with its deferred calls and panics, the [dev.echo] handler and
    the [dev.time] goroutine.  The router library (nexus), the Go standard
    library and the operating system are collaborators: their answers are
    read from a [World], and every call made to them is recorded in a trace
    of [Event]s. *)

From Stdlib Require Import ZArith List String Ascii Bool Lia.
From stdpp Require Import base option gmap strings list pretty.

Local Open Scope Z_scope.
Local Open Scope string_scope.

(** ** package time *)

Module time.

(** [time.Duration] is an int64 count of nanoseconds. *)
Definition Duration := Z.

Definition Nanosecond : Duration := 1.
Definition Microsecond : Duration := 1000 * Nanosecond.
Definition Millisecond : Duration := 1000 * Microsecond.
Definition Second : Duration := 1000 * Millisecond.

(** A wall-clock instant, as [time.Now()] returns it: seconds and
    nanoseconds since the epoch, and the offset of the local zone. *)
Record Time := { unixSec : Z; nsec : Z; zoneOffset : Z }.

(** The layout constant [time.RFC3339]. *)
Definition RFC3339 : string := "2006-01-02T15:04:05Z07:00".

End time.

(** ** package wamp *)

Module wamp.

(** [wamp.List] is [[]interface{}] and [wamp.Dict] is
    [map[string]interface{}]; the payload values are the WAMP ones. *)
#[warnings="-register-all"]
Inductive Value :=
| VNil
| VBool (b : bool)
| VInt (z : Z)
| VString (s : string)
| VList (l : list Value)
| VDict (d : gmap string Value).

Definition List := list Value.
Definition Dict := gmap string Value.
Definition URI := string.
Definition ID := Z.

(** [wamp.Invocation]. *)
Record Invocation := {
  Request : ID;
  Registration : ID;
  Details : Dict;
  Arguments : List;
  ArgumentsKw : Dict
}.

End wamp.

(** ** package client *)

Module client.

(** [client.InvokeResult]. *)
Record InvokeResult := {
  Args : wamp.List;
  Kwargs : wamp.Dict;
  Err : wamp.URI
}.

(** [client.Config], the fields [main] sets. *)
Record Config := { Realm : string }.

End client.

(** ** package router *)

Module router.

(** [router.RealmConfig], the fields [main] sets. *)
Record RealmConfig := {
  URI : wamp.URI;
  AnonymousAuth : bool;
  AllowDisclose : bool
}.

(** [router.Config]. *)
Record Config := { RealmConfigs : list RealmConfig }.

(** An [*http.Request], as far as an origin check can look at it. *)
Record Request := { Origin : string; Host : string }.

(** [router.WebsocketServer] with its embedded [websocket.Upgrader]:
    the fields [main] assigns.  [CheckOrigin = None] is the nil function
    of a fresh server (the library then applies its same-origin check). *)
Record WebsocketServer := {
  EnableCompression : bool;
  CheckOrigin : option (Request -> bool);
  EnableTrackingCookie : bool;
  wsKeepAlive : time.Duration
}.

(** [router.NewWebsocketServer]: every field at its zero value. *)
Definition NewWebsocketServer : WebsocketServer :=
  {| EnableCompression := false;
     CheckOrigin := None;
     EnableTrackingCookie := false;
     wsKeepAlive := 0 |}.

(** [router.RawSocketServer]. *)
Record RawSocketServer := { rsKeepAlive : time.Duration }.

Definition NewRawSocketServer : RawSocketServer := {| rsKeepAlive := 0 |}.

End router.

(** ** The package-level variables of [main.go] (lines 18-31)

    [localClient] and [logger] are pointers that [main] assigns once
    before their first use; they carry no configuration and are left out. *)

Record Globals := {
  realm : string;
  wsEnable : bool;
  wsHost : string;
  wsPort : Z;
  rsEnable : bool;
  rsHost : string;
  rsPort : Z;
  rsProto : string;
  devEcho : bool;
  devTime : bool
}.

(** The initialisers of the [var] block. *)
Definition initialGlobals : Globals :=
  {| realm := "default";
     wsEnable := true;
     wsHost := "localhost";
     wsPort := 8951;
     rsEnable := true;
     rsHost := "127.0.0.1";
     rsPort := 8952;
     rsProto := "tcp";
     devEcho := false;
     devTime := false |}.

(** Addresses of the variables, as [&realm], [&wsEnable], ... pass them. *)
Inductive StringPtr := p_realm | p_wsHost | p_rsHost | p_rsProto.
Inductive BoolPtr := p_wsEnable | p_rsEnable | p_devEcho | p_devTime.
Inductive IntPtr := p_wsPort | p_rsPort.

#[global] Instance StringPtr_eq_dec : EqDecision StringPtr.
Proof. solve_decision. Defined.
#[global] Instance BoolPtr_eq_dec : EqDecision BoolPtr.
Proof. solve_decision. Defined.
#[global] Instance IntPtr_eq_dec : EqDecision IntPtr.
Proof. solve_decision. Defined.

Definition storeString (p : StringPtr) (v : string) (g : Globals) : Globals :=
  match p with
  | p_realm =>
      {| realm := v; wsEnable := wsEnable g; wsHost := wsHost g; wsPort := wsPort g;
         rsEnable := rsEnable g; rsHost := rsHost g; rsPort := rsPort g;
         rsProto := rsProto g; devEcho := devEcho g; devTime := devTime g |}
  | p_wsHost =>
      {| realm := realm g; wsEnable := wsEnable g; wsHost := v; wsPort := wsPort g;
         rsEnable := rsEnable g; rsHost := rsHost g; rsPort := rsPort g;
         rsProto := rsProto g; devEcho := devEcho g; devTime := devTime g |}
  | p_rsHost =>
      {| realm := realm g; wsEnable := wsEnable g; wsHost := wsHost g; wsPort := wsPort g;
         rsEnable := rsEnable g; rsHost := v; rsPort := rsPort g;
         rsProto := rsProto g; devEcho := devEcho g; devTime := devTime g |}
  | p_rsProto =>
      {| realm := realm g; wsEnable := wsEnable g; wsHost := wsHost g; wsPort := wsPort g;
         rsEnable := rsEnable g; rsHost := rsHost g; rsPort := rsPort g;
         rsProto := v; devEcho := devEcho g; devTime := devTime g |}
  end.

Definition storeBool (p : BoolPtr) (v : bool) (g : Globals) : Globals :=
  match p with
  | p_wsEnable =>
      {| realm := realm g; wsEnable := v; wsHost := wsHost g; wsPort := wsPort g;
         rsEnable := rsEnable g; rsHost := rsHost g; rsPort := rsPort g;
         rsProto := rsProto g; devEcho := devEcho g; devTime := devTime g |}
  | p_rsEnable =>
      {| realm := realm g; wsEnable := wsEnable g; wsHost := wsHost g; wsPort := wsPort g;
         rsEnable := v; rsHost := rsHost g; rsPort := rsPort g;
         rsProto := rsProto g; devEcho := devEcho g; devTime := devTime g |}
  | p_devEcho =>
      {| realm := realm g; wsEnable := wsEnable g; wsHost := wsHost g; wsPort := wsPort g;
         rsEnable := rsEnable g; rsHost := rsHost g; rsPort := rsPort g;
         rsProto := rsProto g; devEcho := v; devTime := devTime g |}
  | p_devTime =>
      {| realm := realm g; wsEnable := wsEnable g; wsHost := wsHost g; wsPort := wsPort g;
         rsEnable := rsEnable g; rsHost := rsHost g; rsPort := rsPort g;
         rsProto := rsProto g; devEcho := devEcho g; devTime := v |}
  end.

Definition storeInt (p : IntPtr) (v : Z) (g : Globals) : Globals :=
  match p with
  | p_wsPort =>
      {| realm := realm g; wsEnable := wsEnable g; wsHost := wsHost g; wsPort := v;
         rsEnable := rsEnable g; rsHost := rsHost g; rsPort := rsPort g;
         rsProto := rsProto g; devEcho := devEcho g; devTime := devTime g |}
  | p_rsPort =>
      {| realm := realm g; wsEnable := wsEnable g; wsHost := wsHost g; wsPort := wsPort g;
         rsEnable := rsEnable g; rsHost := rsHost g; rsPort := v;
         rsProto := rsProto g; devEcho := devEcho g; devTime := devTime g |}
  end.

(** ** package flag

    The behaviour of the standard library's [flag] package that [main]
    relies on: [FlagSet.Var] (registration), [FlagSet.parseOne] and
    [FlagSet.Parse] under the [ExitOnError] policy of [flag.CommandLine]. *)

Module flag.

(** The [flag.Value] behind a flag: a typed pointer to its variable. *)
Inductive Value :=
| stringValue (p : StringPtr)
| boolValue (p : BoolPtr)
| intValue (p : IntPtr).

#[global] Instance Value_eq_dec : EqDecision Value.
Proof. solve_decision. Defined.

(** [flag.Flag]. *)
Record Flag := { Name : string; Usage : string; FValue : Value }.

(** [strconv.ParseBool]. *)
Definition ParseBool (s : string) : option bool :=
  if bool_decide (s ∈ ["1"; "t"; "T"; "TRUE"; "true"; "True"]) then Some true
  else if bool_decide (s ∈ ["0"; "f"; "F"; "FALSE"; "false"; "False"]) then Some false
  else None.

(** [strings.HasPrefix name "-"] and [strings.Contains name "="]. *)
Definition beginsWithMinus (s : string) : bool :=
  match s with
  | String c _ => bool_decide (c = "-"%char)
  | EmptyString => false
  end.

Fixpoint containsEquals (s : string) : bool :=
  match s with
  | String c r => bool_decide (c = "="%char) || containsEquals r
  | EmptyString => false
  end.

(** The scan of [parseOne] for the first ['='] that is not the first
    character: [splitAtEquals] cuts a string at its first ['='], and
    [splitName] applies it behind the first character of the name. *)
Fixpoint splitAtEquals (s : string) : option (string * string) :=
  match s with
  | EmptyString => None
  | String c r =>
      if bool_decide (c = "="%char) then Some (EmptyString, r)
      else match splitAtEquals r with
           | Some (n, v) => Some (String c n, v)
           | None => None
           end
  end.

Definition splitName (name : string) : string * option string :=
  match name with
  | EmptyString => (name, None)
  | String c r =>
      match splitAtEquals r with
      | Some (n, v) => (String c n, Some v)
      | None => (name, None)
      end
  end.

(** The syntactic part of [parseOne] on one argument. *)
Inductive Token :=
| NotAFlag                       (* shorter than 2, or no leading minus *)
| Terminator                     (* exactly two minus signs *)
| BadSyntax
| FlagToken (name : string) (value : option string).

Definition tokenize (s : string) : Token :=
  match s with
  | String "-" (String c r) =>
      let name := if bool_decide (c = "-"%char) then r else String c r in
      if bool_decide (c = "-"%char) && bool_decide (r = EmptyString) then Terminator
      else
        match name with
        | EmptyString => BadSyntax
        | String d _ =>
            if bool_decide (d = "-"%char) || bool_decide (d = "="%char) then BadSyntax
            else let '(n, v) := splitName name in FlagToken n v
        end
  | _ => NotAFlag
  end.

End flag.

(** ** Calls to the collaborators and their answers *)

(** A Go [error], by its message. *)
Definition error := string.

(** What the [dev.echo] callback does besides returning. *)
Inductive HandlerEffect :=
| Sleep (d : time.Duration)
| FmtPrintf (format : string) (res : client.InvokeResult) (details : wamp.Dict).

(** [client.InvocationHandler]; the [context.Context] argument is not
    read by the handler of [main] and is left out. *)
Definition InvocationHandler : Type :=
  wamp.Invocation -> list HandlerEffect * client.InvokeResult.

(** One call made by the program, with the answer it got. *)
Inductive Event :=
| router_NewRouter (cfg : router.Config) (err : option error)
| wsRouter_Close
| client_ConnectLocal (cfg : client.Config) (err : option error)
| localClient_Close
| router_NewWebsocketServer
| wsServer_ListenAndServe (srv : router.WebsocketServer) (addr : string) (err : option error)
| wsCloser_Close
| router_NewRawSocketServer
| rsServer_ListenAndServe (srv : router.RawSocketServer) (network addr : string) (err : option error)
| rsCloser_Close
| client_Register (procedure : string) (callback : InvocationHandler) (err : option error)
| time_NewTicker (d : time.Duration)
| go_tickerLoop
| ticker_Stop
| localClient_Publish (topic : string) (options : wamp.Dict) (args : wamp.List) (kwargs : wamp.Dict)
| logger_Printf (line : string)
| signal_Notify
| recv_shutdown.

(** The answers of the router library and of the operating system in one
    run: the error (or [None]) of each fallible call, the instants
    [time.Now()] returns at the ticks delivered while [main] waits, and
    whether an interrupt is ever delivered. *)
Record World := {
  NewRouter_err : router.Config -> option error;
  ConnectLocal_err : client.Config -> option error;
  wsListen_err : string -> option error;
  rsListen_err : string -> string -> option error;
  Register_err : string -> option error;
  ticks : list time.Time;
  interrupt : bool
}.

(** A value passed to [panic]. *)
Inductive PanicValue :=
| panic_string (s : string)
| panic_error (e : error).

(** The calls [main] defers. *)
Inductive Deferred :=
| defer_wsRouter_Close
| defer_localClient_Close
| defer_wsCloser_Close
| defer_rsCloser_Close.

Definition runDeferred (d : Deferred) : Event :=
  match d with
  | defer_wsRouter_Close => wsRouter_Close
  | defer_localClient_Close => localClient_Close
  | defer_wsCloser_Close => wsCloser_Close
  | defer_rsCloser_Close => rsCloser_Close
  end.

(** ** The state of the process and the monad of [main]

    [vars] are the package-level variables, [formal] the flags registered
    on [flag.CommandLine], [trace] the calls made so far (oldest first),
    [deferred] the deferred calls of [main] (latest first), [tickerQuit]
    the values sent on the channel of that name once it is made, and
    [tickerLoop] whether the goroutine of line 127 has been started. *)

Record State := {
  vars : Globals;
  formal : gmap string flag.Flag;
  trace : list Event;
  deferred : list Deferred;
  tickerQuit : option (list unit);
  tickerLoop : bool
}.

Definition initialState (g : Globals) : State :=
  {| vars := g; formal := ∅; trace := []; deferred := [];
     tickerQuit := None; tickerLoop := false |}.

(** How a statement ends: normally, in a panic, in [os.Exit], or never
    (blocked on a channel nobody sends on). *)
Inductive Res (A : Type) :=
| Done (a : A)
| Panicking (v : PanicValue)
| Exiting (code : Z)
| Blocked.
Arguments Done {A} a.
Arguments Panicking {A} v.
Arguments Exiting {A} code.
Arguments Blocked {A}.

Definition M (A : Type) : Type := State -> Res A * State.

#[global] Instance M_ret : MRet M := fun A a s => (Done a, s).

#[global] Instance M_bind : MBind M := fun A B f m s =>
  match m s with
  | (Done a, s') => f a s'
  | (Panicking v, s') => (Panicking v, s')
  | (Exiting c, s') => (Exiting c, s')
  | (Blocked, s') => (Blocked, s')
  end.

Definition panic {A} (v : PanicValue) : M A := fun s => (Panicking v, s).
Definition os_Exit {A} (code : Z) : M A := fun s => (Exiting code, s).

Definition rd {A} (f : Globals -> A) : M A := fun s => (Done (f (vars s)), s).

Definition emit (e : Event) : M unit := fun s =>
  (Done tt,
   {| vars := vars s; formal := formal s; trace := trace s ++ [e];
      deferred := deferred s; tickerQuit := tickerQuit s; tickerLoop := tickerLoop s |}).

Definition defer (d : Deferred) : M unit := fun s =>
  (Done tt,
   {| vars := vars s; formal := formal s; trace := trace s;
      deferred := d :: deferred s; tickerQuit := tickerQuit s; tickerLoop := tickerLoop s |}).

Definition setVars (g : Globals) : M unit := fun s =>
  (Done tt,
   {| vars := g; formal := formal s; trace := trace s;
      deferred := deferred s; tickerQuit := tickerQuit s; tickerLoop := tickerLoop s |}).

Definition setFormal (m : gmap string flag.Flag) : M unit := fun s =>
  (Done tt,
   {| vars := vars s; formal := m; trace := trace s;
      deferred := deferred s; tickerQuit := tickerQuit s; tickerLoop := tickerLoop s |}).

Definition getFormal : M (gmap string flag.Flag) := fun s => (Done (formal s), s).

(** [tickerQuit := make(chan struct{})]: a channel with nothing sent. *)
Definition make_tickerQuit : M unit := fun s =>
  (Done tt,
   {| vars := vars s; formal := formal s; trace := trace s;
      deferred := deferred s; tickerQuit := Some []; tickerLoop := tickerLoop s |}).

(** [go func() { ... }()] of line 127. *)
Definition go_func : M unit := fun s =>
  (Done tt,
   {| vars := vars s; formal := formal s; trace := trace s ++ [go_tickerLoop];
      deferred := deferred s; tickerQuit := tickerQuit s; tickerLoop := true |}).

(** The outcome of the process. *)
Inductive Outcome :=
| ExitedNormally                  (* main returned: exit status 0 *)
| Crashed (v : PanicValue)        (* unrecovered panic: exit status 2 *)
| ExitedWith (code : Z)           (* os.Exit(code) *)
| WaitsForever.                   (* blocked until the process is killed *)

Record Run := { events : list Event; outcome : Outcome }.

(** Running [main] as the function of the main goroutine: when its body
    returns or panics, its deferred calls run, latest first; [os.Exit]
    runs none of them. *)
Definition callMain (body : M unit) (s : State) : Run :=
  match body s with
  | (Done _, s') =>
      {| events := trace s' ++ map runDeferred (deferred s'); outcome := ExitedNormally |}
  | (Panicking v, s') =>
      {| events := trace s' ++ map runDeferred (deferred s'); outcome := Crashed v |}
  | (Exiting c, s') => {| events := trace s'; outcome := ExitedWith c |}
  | (Blocked, s') => {| events := trace s'; outcome := WaitsForever |}
  end.

(** ** Formatting helpers of [fmt] and [log] *)

Definition newline : string := String "010"%char EmptyString.
Definition dquote : string := String "034"%char EmptyString.

(** [fmt.Sprintf("%s:%d", host, port)]. *)
Definition Sprintf_addr (host : string) (port : Z) : string :=
  host +:+ ":" +:+ pretty port.

(** The verb [%q] on a string of printable characters without quote or
    backslash, as the procedure names of [main] are. *)
Definition Sprintf_q (s : string) : string := dquote +:+ s +:+ dquote.

Section Program.

(** The functions of the Go standard library whose results the program
    only passes on: [strconv.ParseInt(s, 0, 64)] behind an int flag and
    [Time.Format]. *)
Variable strconv_ParseInt : string -> option Z.
Variable time_Format : time.Time -> string -> string.

(** The collaborators' answers in this run. *)
Variable w : World.

(** *** Flags *)

(** [FlagSet.Var]: panics on a name that begins with [-] or contains
    [=], and on a name already registered. *)
Definition flag_Var (value : flag.Value) (name usage : string) : M unit :=
  if flag.beginsWithMinus name then
    panic (panic_string ("flag " +:+ Sprintf_q name +:+ " begins with -"))
  else if flag.containsEquals name then
    panic (panic_string ("flag " +:+ Sprintf_q name +:+ " contains ="))
  else
    m ← getFormal;
    match m !! name with
    | Some _ => panic (panic_string ("flag redefined: " +:+ name))
    | None =>
        setFormal (<[name := {| flag.Name := name; flag.Usage := usage;
                                flag.FValue := value |}]> m)
    end.

(** [flag.StringVar(p, name, value, usage)]: [*p = value], then [Var]. *)
Definition flag_StringVar (p : StringPtr) (name value usage : string) : M unit :=
  g ← rd id; setVars (storeString p value g);;
  flag_Var (flag.stringValue p) name usage.

Definition flag_BoolVar (p : BoolPtr) (name : string) (value : bool) (usage : string) : M unit :=
  g ← rd id; setVars (storeBool p value g);;
  flag_Var (flag.boolValue p) name usage.

Definition flag_IntVar (p : IntPtr) (name : string) (value : Z) (usage : string) : M unit :=
  g ← rd id; setVars (storeInt p value g);;
  flag_Var (flag.intValue p) name usage.

(** The errors of [parseOne]. *)
Inductive ParseError :=
| ErrHelp
| bad_flag_syntax (s : string)
| flag_provided_but_not_defined (name : string)
| invalid_boolean_value (value name : string)
| flag_needs_an_argument (name : string)
| invalid_value (value name : string).

(** [Value.Set] of a string or int flag. *)
Definition Set_value (v : flag.Value) (s : string) (g : Globals) : option Globals :=
  match v with
  | flag.stringValue p => Some (storeString p s g)
  | flag.boolValue p => b ← flag.ParseBool s; Some (storeBool p b g)
  | flag.intValue p => z ← strconv_ParseInt s; Some (storeInt p z g)
  end.

(** The loop of [FlagSet.Parse] over [parseOne]: the variables after the
    flags are consumed and the remaining arguments, or the first error. *)
Fixpoint parseArgs (m : gmap string flag.Flag) (args : list string) (g : Globals)
  : ParseError + Globals * list string :=
  match args with
  | [] => inr (g, [])
  | s :: rest =>
      match flag.tokenize s with
      | flag.NotAFlag => inr (g, args)
      | flag.Terminator => inr (g, rest)
      | flag.BadSyntax => inl (bad_flag_syntax s)
      | flag.FlagToken name value =>
          match m !! name with
          | None =>
              if bool_decide (name = "help") || bool_decide (name = "h")
              then inl ErrHelp
              else inl (flag_provided_but_not_defined name)
          | Some fl =>
              match flag.FValue fl with
              | flag.boolValue p =>
                  match flag.ParseBool (default "true" value) with
                  | Some b => parseArgs m rest (storeBool p b g)
                  | None => inl (invalid_boolean_value (default "true" value) name)
                  end
              | v =>
                  match value with
                  | Some x =>
                      match Set_value v x g with
                      | Some g' => parseArgs m rest g'
                      | None => inl (invalid_value x name)
                      end
                  | None =>
                      match rest with
                      | [] => inl (flag_needs_an_argument name)
                      | x :: rest' =>
                          match Set_value v x g with
                          | Some g' => parseArgs m rest' g'
                          | None => inl (invalid_value x name)
                          end
                      end
                  end
              end
          end
      end
  end.

(** [flag.Parse()] on [os.Args[1:]] with [ExitOnError]: exit status 0
    after [-h]/[-help], 2 after any other error. *)
Definition flag_Parse (args : list string) : M unit :=
  m ← getFormal; g ← rd id;
  match parseArgs m args g with
  | inr (g', _) => setVars g'
  | inl ErrHelp => os_Exit 0
  | inl _ => os_Exit 2
  end.

(** Lines 35-44 of [main]: each default is the current value of the
    variable, and the NAME of the first flag is the current value of
    [realm]. *)
Definition registerFlags : M unit :=
  name ← rd realm;
  flag_StringVar p_realm name "default" "Realm to be created";;
  v ← rd wsEnable;
  flag_BoolVar p_wsEnable "ws" v "Should WebSocket transport be started";;
  v ← rd wsHost;
  flag_StringVar p_wsHost "ws-host" v "WebSocket host to listen on";;
  v ← rd wsPort;
  flag_IntVar p_wsPort "ws-port" v "WebSocket port to listen on";;
  v ← rd rsEnable;
  flag_BoolVar p_rsEnable "rs" v "Should RawSocket transport be started";;
  v ← rd rsHost;
  flag_StringVar p_rsHost "rs-host" v "RawSocket host to listen on";;
  v ← rd rsPort;
  flag_IntVar p_rsPort "rs-port" v "RawSocket port to listen on";;
  v ← rd rsProto;
  flag_StringVar p_rsProto "rs-proto" v "RawSocket protocol (tcp,tcp4,tcp6,unix,unixpacket)";;
  v ← rd devEcho;
  flag_BoolVar p_devEcho "decho" v "Should dev.echo RPC be registered";;
  v ← rd devTime;
  flag_BoolVar p_devTime "dtime" v "Should the time be regularly published on dev.time".

(** *** The demo workloads *)

(** The callback registered under [dev.echo] (lines 110-118). *)
Definition devEchoHandler : InvocationHandler := fun inv =>
  let res := {| client.Args := wamp.Arguments inv;
                client.Kwargs := wamp.ArgumentsKw inv;
                client.Err := EmptyString |} in
  ([Sleep (2 * time.Second);
    FmtPrintf ("dev.echo %v %v" +:+ newline) res (wamp.Details inv)],
   res).

(** [createLocalCallee] (lines 149-155). *)
Definition createLocalCallee (procedure : string) (callback : InvocationHandler)
  : M (option error) :=
  let err := Register_err w procedure in
  emit (client_Register procedure callback err);;
  match err with
  | Some e =>
      mret (Some ("failed to register " +:+ Sprintf_q procedure +:+ ": " +:+ e))
  | None =>
      emit (logger_Printf ("registered RPC: " +:+ procedure +:+ newline));;
      mret None
  end.

(** A case of the [select] of line 129 that is ready. *)
Inductive Ready :=
| ticker_C (now : time.Time)     (* a tick; [now] is what time.Now() returns *)
| tickerQuit_recv.               (* a value received from tickerQuit *)

(** The goroutine of lines 127-140, driven by the cases that become
    ready, in order; with none left it stays blocked in the [select]. *)
Fixpoint tickerGoroutine (rs : list Ready) : list Event :=
  match rs with
  | [] => []
  | ticker_C now :: rest =>
      let nowStr := time_Format now time.RFC3339 in
      logger_Printf ("dev.time: " +:+ nowStr +:+ newline)
      :: localClient_Publish "dev.time" ∅ [wamp.VString nowStr] ∅
      :: tickerGoroutine rest
  | tickerQuit_recv :: _ => [ticker_Stop]
  end.

(** What the goroutine can receive while [main] waits: the ticks, and
    whatever was sent on [tickerQuit]. *)
Definition readyCases (ts : list time.Time) (sent : list unit) : list Ready :=
  map ticker_C ts ++ map (fun _ => tickerQuit_recv) sent.

(** [<-shutdown] (line 146): while [main] waits the goroutine, if it was
    started, serves its ready cases; [main] goes on when the interrupt is
    delivered and waits forever otherwise. *)
Definition await_shutdown : M unit := fun s =>
  let served :=
    if tickerLoop s
    then tickerGoroutine (readyCases (ticks w) (default [] (tickerQuit s)))
    else [] in
  let s' tail :=
    {| vars := vars s; formal := formal s; trace := trace s ++ served ++ tail;
       deferred := deferred s; tickerQuit := tickerQuit s; tickerLoop := tickerLoop s |} in
  if interrupt w then (Done tt, s' [recv_shutdown]) else (Blocked, s' []).

(** *** [main] after [flag.Parse()] (lines 47-146) *)

Definition when (b : bool) (m : M unit) : M unit := if b then m else mret tt.

(** The server of lines 83-89: a fresh [WebsocketServer] after the four
    assignments, in their order. *)
Definition wsServer : router.WebsocketServer :=
  let srv := router.NewWebsocketServer in
  let srv :=
    {| router.EnableCompression := true;
       router.CheckOrigin := router.CheckOrigin srv;
       router.EnableTrackingCookie := router.EnableTrackingCookie srv;
       router.wsKeepAlive := router.wsKeepAlive srv |} in
  let srv :=
    {| router.EnableCompression := router.EnableCompression srv;
       router.CheckOrigin := Some (fun res : router.Request => true);
       router.EnableTrackingCookie := router.EnableTrackingCookie srv;
       router.wsKeepAlive := router.wsKeepAlive srv |} in
  let srv :=
    {| router.EnableCompression := router.EnableCompression srv;
       router.CheckOrigin := router.CheckOrigin srv;
       router.EnableTrackingCookie := true;
       router.wsKeepAlive := router.wsKeepAlive srv |} in
  {| router.EnableCompression := router.EnableCompression srv;
     router.CheckOrigin := router.CheckOrigin srv;
     router.EnableTrackingCookie := router.EnableTrackingCookie srv;
     router.wsKeepAlive := 30 * time.Second |}.

(** Lines 82-96. *)
Definition startWebsocket (wsAddr : string) : M unit :=
  emit router_NewWebsocketServer;;
  let err := wsListen_err w wsAddr in
  emit (wsServer_ListenAndServe wsServer wsAddr err);;
  match err with
  | Some e => panic (panic_error e)
  | None =>
      defer defer_wsCloser_Close;;
      emit (logger_Printf ("listening on ws://" +:+ wsAddr +:+ newline))
  end.

(** The server of lines 99-100. *)
Definition rsServer : router.RawSocketServer :=
  let srv := router.NewRawSocketServer in
  {| router.rsKeepAlive := 30 * time.Second |}.

(** Lines 98-107. *)
Definition startRawSocket (rsAddr : string) : M unit :=
  emit router_NewRawSocketServer;;
  proto ← rd rsProto;
  let err := rsListen_err w proto rsAddr in
  emit (rsServer_ListenAndServe rsServer proto rsAddr err);;
  match err with
  | Some e => panic (panic_error e)
  | None =>
      defer defer_rsCloser_Close;;
      proto ← rd rsProto;
      emit (logger_Printf ("listening on " +:+ proto +:+ "://" +:+ rsAddr +:+ newline))
  end.

(** Lines 109-122. *)
Definition registerDevEcho : M unit :=
  err ← createLocalCallee "dev.echo" devEchoHandler;
  match err with
  | Some e => panic (panic_error e)
  | None => mret tt
  end.

(** Lines 124-141. *)
Definition startDevTime : M unit :=
  emit (time_NewTicker (time.Second * 5));;
  make_tickerQuit;;
  go_func.

Definition serve : M unit :=
  ws ← rd wsEnable; rs ← rd rsEnable;
  if negb ws && negb rs then
    panic (panic_string
      "one of WebSocket (-ws) or RawSocket (-rs) transports must be enabled")
  else
    wsAddr ← (h ← rd wsHost; p ← rd wsPort; mret (Sprintf_addr h p));
    rsAddr ← (h ← rd rsHost; p ← rd rsPort; mret (Sprintf_addr h p));
    r ← rd realm;
    let routerConfig :=
      {| router.RealmConfigs :=
           [ {| router.URI := r;
                router.AnonymousAuth := true;
                router.AllowDisclose := true |} ] |} in
    let err := NewRouter_err w routerConfig in
    emit (router_NewRouter routerConfig err);;
    match err with
    | Some e => panic (panic_error e)
    | None =>
        defer defer_wsRouter_Close;;
        r ← rd realm;
        let clientConfig := {| client.Realm := r |} in
        let err := ConnectLocal_err w clientConfig in
        emit (client_ConnectLocal clientConfig err);;
        match err with
        | Some e => panic (panic_error e)
        | None =>
            defer defer_localClient_Close;;
            b ← rd wsEnable; when b (startWebsocket wsAddr);;
            b ← rd rsEnable; when b (startRawSocket rsAddr);;
            b ← rd devEcho; when b registerDevEcho;;
            b ← rd devTime; when b startDevTime;;
            emit signal_Notify;;
            await_shutdown
        end
    end.

(** The process started from a given state of the variables, as after
    [flag.Parse()]. *)
Definition runServe (g : Globals) : Run := callMain serve (initialState g).

(** [main] on the command line [args] (that is [os.Args[1:]]). *)
Definition main (args : list string) : Run :=
  callMain (registerFlags;; flag_Parse args;; serve) (initialState initialGlobals).

(** The variables as [flag.Parse()] leaves them, when it returns. *)
Definition parsedGlobals (args : list string) : option Globals :=
  match (registerFlags;; flag_Parse args) (initialState initialGlobals) with
  | (Done _, s) => Some (vars s)
  | _ => None
  end.

(** The flags registered on the command line of [main]. *)
Definition registeredFlags : gmap string flag.Flag :=
  formal (registerFlags (initialState initialGlobals)).2.

End Program.

(** ** Observing a run *)

(** The resources the process owns. *)
Inductive Resource :=
| routerHandle
| localSession
| wsListener
| rsListener
| publisherTimer.

#[global] Instance Resource_eq_dec : EqDecision Resource.
Proof. solve_decision. Defined.

(** A call that hands a resource to the process: a fallible constructor
    that returned no error, or [time.NewTicker]. *)
Definition acquires (e : Event) : option Resource :=
  match e with
  | router_NewRouter _ None => Some routerHandle
  | client_ConnectLocal _ None => Some localSession
  | wsServer_ListenAndServe _ _ None => Some wsListener
  | rsServer_ListenAndServe _ _ _ None => Some rsListener
  | time_NewTicker _ => Some publisherTimer
  | _ => None
  end.

(** A call that releases one. *)
Definition releases (e : Event) : option Resource :=
  match e with
  | wsRouter_Close => Some routerHandle
  | localClient_Close => Some localSession
  | wsCloser_Close => Some wsListener
  | rsCloser_Close => Some rsListener
  | ticker_Stop => Some publisherTimer
  | _ => None
  end.

(** The release call of a resource. *)
Definition release (r : Resource) : Event :=
  match r with
  | routerHandle => wsRouter_Close
  | localSession => localClient_Close
  | wsListener => wsCloser_Close
  | rsListener => rsCloser_Close
  | publisherTimer => ticker_Stop
  end.

(** The resources acquired, and the resources released, in a trace, in
    the order of the calls. *)
Definition acquired (tr : list Event) : list Resource := omap acquires tr.
Definition released (tr : list Event) : list Resource := omap releases tr.

(** A call that constructs or starts a transport listener. *)
Definition touchesTransport (e : Event) : bool :=
  match e with
  | router_NewWebsocketServer
  | wsServer_ListenAndServe _ _ _
  | router_NewRawSocketServer
  | rsServer_ListenAndServe _ _ _ _ => true
  | _ => false
  end.

(** The events published in a trace: topic, options, positional and
    keyword arguments of each [Publish], in order. *)
Definition published (tr : list Event)
  : list (string * wamp.Dict * wamp.List * wamp.Dict) :=
  omap (fun e => match e with
                 | localClient_Publish t o a k => Some (t, o, a, k)
                 | _ => None
                 end) tr.

(** The default configuration of section 6 of the specification. *)
Definition documentedDefaults : Globals :=
  {| realm := "default";
     wsEnable := true; wsHost := "localhost"; wsPort := 8951;
     rsEnable := true; rsHost := "127.0.0.1"; rsPort := 8952; rsProto := "tcp";
     devEcho := false; devTime := false |}.

(** ** Instances for the examples *)

(** An instance of [strconv.ParseInt] on plain decimal digits. *)
Fixpoint decimalDigits (s : string) (acc : Z) : option Z :=
  match s with
  | EmptyString => Some acc
  | String c r =>
      let n := Z.of_N (N_of_ascii c) - 48 in
      if ((0 <=? n) && (n <=? 9))%Z then decimalDigits r (10 * acc + n) else None
  end.

Definition decimal_ParseInt (s : string) : option Z :=
  match s with
  | EmptyString => None
  | _ => decimalDigits s 0
  end.

(** An instance of [Time.Format] that prints the seconds since the epoch. *)
Definition epoch_Format (t : time.Time) (layout : string) : string :=
  pretty (time.unixSec t).

(** A world in which every call succeeds, the ticker fires at the given
    instants while [main] waits, and the interrupt arrives. *)
Definition obligingWorld (ts : list time.Time) : World :=
  {| NewRouter_err := fun _ => None;
     ConnectLocal_err := fun _ => None;
     wsListen_err := fun _ => None;
     rsListen_err := fun _ _ => None;
     Register_err := fun _ => None;
     ticks := ts;
     interrupt := true |}.

(** A world in which the port of the raw-socket transport is taken. *)
Definition rsPortTaken : World :=
  {| NewRouter_err := fun _ => None;
     ConnectLocal_err := fun _ => None;
     wsListen_err := fun _ => None;
     rsListen_err := fun _ _ => Some "bind: address already in use";
     Register_err := fun _ => None;
     ticks := [];
     interrupt := true |}.

(** A world in which the router rejects the local session. *)
Definition sessionRejected : World :=
  {| NewRouter_err := fun _ => None;
     ConnectLocal_err := fun _ => Some "no such realm";
     wsListen_err := fun _ => None;
     rsListen_err := fun _ _ => None;
     Register_err := fun _ => None;
     ticks := [];
     interrupt := true |}.

Definition noon : time.Time :=
  {| time.unixSec := 1700000000; time.nsec := 0; time.zoneOffset := 0 |}.

(** The defaults with both transports switched off ([-ws=false -rs=false]). *)
Definition bothDisabled : Globals :=
  storeBool p_rsEnable false (storeBool p_wsEnable false documentedDefaults).

(** The defaults with the delayed echo and the time publisher switched on
    ([-decho -dtime]). *)
Definition demoEnabled : Globals :=
  storeBool p_devTime true (storeBool p_devEcho true documentedDefaults).

(** The run of [main -dtime] in a world where every call succeeds, the
    ticker fires once and the interrupt arrives. *)
Definition dtimeRun : Run :=
  main decimal_ParseInt epoch_Format (obligingWorld [noon]) ["-dtime"].

(** An invocation of [dev.echo] with two positional arguments and one
    keyword argument. *)
Definition sampleInvocation : wamp.Invocation :=
  {| wamp.Request := 1; wamp.Registration := 1; wamp.Details := ∅;
     wamp.Arguments := [wamp.VInt 7; wamp.VString "x"];
     wamp.ArgumentsKw := {["k" := wamp.VBool true]} |}.

(** ** What [main] builds from the variables *)

(** The router configuration of lines 56-64. *)
Definition routerConfigOf (g : Globals) : router.Config :=
  {| router.RealmConfigs :=
       [ {| router.URI := realm g;
            router.AnonymousAuth := true;
            router.AllowDisclose := true |} ] |}.

(** The client configuration of lines 72-75. *)
Definition clientConfigOf (g : Globals) : client.Config :=
  {| client.Realm := realm g |}.

(** The addresses of lines 51-52. *)
Definition wsAddrOf (g : Globals) : string := Sprintf_addr (wsHost g) (wsPort g).
Definition rsAddrOf (g : Globals) : string := Sprintf_addr (rsHost g) (rsPort g).

(** The message of the panic of line 48. *)
Definition noTransportMessage : string :=
  "one of WebSocket (-ws) or RawSocket (-rs) transports must be enabled".

(** The message of the error of line 151. *)
Definition registerFailure (procedure : string) (e : error) : error :=
  "failed to register " +:+ Sprintf_q procedure +:+ ": " +:+ e.

(** The log lines of lines 95, 106 and 153. *)
Definition wsListeningLine (addr : string) : string :=
  "listening on ws://" +:+ addr +:+ newline.
Definition rsListeningLine (network addr : string) : string :=
  "listening on " +:+ network +:+ "://" +:+ addr +:+ newline.
Definition registeredLine (procedure : string) : string :=
  "registered RPC: " +:+ procedure +:+ newline.

(** The resources a configuration asks for, in the order in which [main]
    acquires them. *)
Definition configuredOrder (g : Globals) : list Resource :=
  ([routerHandle; localSession]
   ++ (if wsEnable g then [wsListener] else [])
   ++ (if rsEnable g then [rsListener] else [])
   ++ (if devTime g then [publisherTimer] else []))%list.

(** The resources whose release [main] defers: all but the ticker. *)
Definition closable (r : Resource) : bool :=
  negb (bool_decide (r = publisherTimer)).

(** Calls that belong to one transport or one demo workload. *)
Definition isWsCall (e : Event) : bool :=
  match e with
  | router_NewWebsocketServer | wsServer_ListenAndServe _ _ _ | wsCloser_Close => true
  | _ => false
  end.

Definition isRsCall (e : Event) : bool :=
  match e with
  | router_NewRawSocketServer | rsServer_ListenAndServe _ _ _ _ | rsCloser_Close => true
  | _ => false
  end.

Definition isEchoCall (e : Event) : bool :=
  match e with
  | client_Register _ _ _ => true
  | _ => false
  end.

Definition isTimeCall (e : Event) : bool :=
  match e with
  | time_NewTicker _ | go_tickerLoop | ticker_Stop | localClient_Publish _ _ _ _ => true
  | _ => false
  end.

(** Some argument is the flag [name]: written with one or two dashes,
    alone or followed by [=value]. *)
Definition namesFlag (name : string) (args : list string) : Prop :=
  exists a v, In a args /\ flag.tokenize a = flag.FlagToken name v.

(** Setting a flag of this value never changes what [f] reads from the
    variables. *)
Definition leavesAlone {A} (f : Globals -> A) (v : flag.Value) : Prop :=
  match v with
  | flag.stringValue p => forall x g, f (storeString p x g) = f g
  | flag.boolValue p => forall b g, f (storeBool p b g) = f g
  | flag.intValue p => forall z g, f (storeInt p z g) = f g
  end.

(** ** More instances for the examples *)

(** A world in which the router cannot be created. *)
Definition routerRefused : World :=
  {| NewRouter_err := fun _ => Some "invalid realm URI";
     ConnectLocal_err := fun _ => None;
     wsListen_err := fun _ => None;
     rsListen_err := fun _ _ => None;
     Register_err := fun _ => None;
     ticks := [];
     interrupt := true |}.

(** A world in which the procedure name is already taken. *)
Definition nameTaken : World :=
  {| NewRouter_err := fun _ => None;
     ConnectLocal_err := fun _ => None;
     wsListen_err := fun _ => None;
     rsListen_err := fun _ _ => None;
     Register_err := fun _ => Some "wamp.error.procedure_already_exists";
     ticks := [];
     interrupt := true |}.

(** A world in which every call succeeds and no interrupt ever comes. *)
Definition neverInterrupted : World :=
  {| NewRouter_err := fun _ => None;
     ConnectLocal_err := fun _ => None;
     wsListen_err := fun _ => None;
     rsListen_err := fun _ _ => None;
     Register_err := fun _ => None;
     ticks := [noon];
     interrupt := false |}.

(** The defaults with one transport switched off. *)
Definition wsOnly : Globals := storeBool p_rsEnable false documentedDefaults.
Definition rsOnly : Globals := storeBool p_wsEnable false documentedDefaults.

(** A command line that sets every variable but the realm, and the
    variables it leaves. *)
Definition everyFlag : list string :=
  ["-ws=false"; "-ws-host=0.0.0.0"; "-ws-port=80"; "-rs=false";
   "-rs-host"; "::1"; "-rs-port"; "81"; "--rs-proto=tcp6"; "-decho"; "--dtime"].

Definition everyFlagGlobals : Globals :=
  {| realm := "default";
     wsEnable := false; wsHost := "0.0.0.0"; wsPort := 80;
     rsEnable := false; rsHost := "::1"; rsPort := 81; rsProto := "tcp6";
     devEcho := true; devTime := true |}.

(** ** Properties *)

Section Properties.

Variable strconv_ParseInt : string -> option Z.
Variable time_Format : time.Time -> string -> string.
Variable w : World.

(** *** The goroutine *)

Lemma readyCases_nil ts : readyCases ts [] = map ticker_C ts.
Proof. unfold readyCases. simpl. apply app_nil_r. Qed.

Lemma In_tickerGoroutine rs e :
  In e (tickerGoroutine time_Format rs) ->
  (exists line, e = logger_Printf line) \/
  (exists now, In (ticker_C now) rs /\
     e = localClient_Publish "dev.time" ∅
           [wamp.VString (time_Format now time.RFC3339)] ∅) \/
  (e = ticker_Stop /\ In tickerQuit_recv rs).
Proof.
  induction rs as [|[now|] rs IH]; simpl.
  - intros [].
  - intros [<-|[<-|H]].
    + left. eauto.
    + right. left. exists now. split; [by left|done].
    + destruct (IH H) as [?|[(n & ? & ?)|[? ?]]]; eauto 8.
  - intros [<-|[]]. right. right. split; [done|by left].
Qed.

Lemma In_ticks_only ts e :
  In e (tickerGoroutine time_Format (map ticker_C ts)) ->
  (exists line, e = logger_Printf line) \/
  (exists now, In now ts /\
     e = localClient_Publish "dev.time" ∅
           [wamp.VString (time_Format now time.RFC3339)] ∅).
Proof.
  intros H. apply In_tickerGoroutine in H as [?|[(now & Hin & ->)|[_ Hin]]].
  - by left.
  - right. exists now. split; [|done].
    apply in_map_iff in Hin as (x & [= ->] & ?). done.
  - apply in_map_iff in Hin as (x & [=] & ?).
Qed.

Lemma acquired_ticks ts :
  acquired (tickerGoroutine time_Format (map ticker_C ts)) = [].
Proof. induction ts; [done|]. simpl. exact IHts. Qed.

Lemma released_ticks ts :
  released (tickerGoroutine time_Format (map ticker_C ts)) = [].
Proof. induction ts; [done|]. simpl. exact IHts. Qed.

Lemma published_ticks ts :
  published (tickerGoroutine time_Format (map ticker_C ts)) =
  map (fun now => ("dev.time", ∅, [wamp.VString (time_Format now time.RFC3339)], ∅)) ts.
Proof. induction ts; [done|]. simpl. f_equal. exact IHts. Qed.

(** *** Case analysis of a run *)

Ltac unfold_serve :=
  cbv [runServe callMain serve startWebsocket startRawSocket registerDevEcho
       createLocalCallee startDevTime await_shutdown when
       mbind M_bind mret M_ret rd emit defer panic make_tickerQuit go_func
       initialState vars trace deferred tickerQuit tickerLoop formal
       wsEnable rsEnable devEcho devTime realm wsHost wsPort rsHost rsPort rsProto
       negb andb default events outcome].

Ltac split_answers :=
  repeat match goal with
    | |- context [match ?x with Some _ => _ | None => _ end] => destruct x eqn:?
    | |- context [if interrupt ?x then _ else _] => destruct (interrupt x) eqn:?
    end.

(** Every path of [serve]: the variables are split into their fields, the
    four switches and every answer of the collaborators are enumerated. *)
Ltac serve_paths g :=
  destruct g as [?r [] ?wh ?wp [] ?rh ?rp ?proto [] []];
  unfold_serve; split_answers;
  rewrite ?readyCases_nil; cbn [app map runDeferred].

(** Membership in the explicit trace of one path. *)
Ltac in_trace H :=
  repeat match type of H with
    | In _ (_ :: _) => destruct H as [H|H]
    | In _ (_ ++ _) => apply in_app_or in H; destruct H as [H|H]
    | In _ (tickerGoroutine _ (map ticker_C _)) =>
        apply In_ticks_only in H as [[? H]|(? & ? & H)]
    | In _ [] => destruct H
    | _ = _ => discriminate H
    end.

(** [serve] does not read the registered flags. *)
Lemma serve_after_parse (g : Globals) (m : gmap string flag.Flag) :
  callMain (serve time_Format w)
    {| vars := g; formal := m; trace := []; deferred := [];
       tickerQuit := None; tickerLoop := false |}
  = runServe time_Format w g.
Proof. serve_paths g; reflexivity. Qed.

Lemma registerFlags_initial :
  registerFlags (initialState initialGlobals) =
  (Done tt,
   {| vars := initialGlobals; formal := registeredFlags; trace := [];
      deferred := []; tickerQuit := None; tickerLoop := false |}).
Proof. vm_compute. reflexivity. Qed.

(** When [flag.Parse()] returns, the process goes on as [serve] does from
    the variables it leaves. *)
Lemma main_after_parse (args : list string) (g : Globals) :
  parsedGlobals strconv_ParseInt args = Some g ->
  main strconv_ParseInt time_Format w args = runServe time_Format w g.
Proof.
  unfold parsedGlobals, main.
  rewrite <- (serve_after_parse g registeredFlags).
  unfold callMain at 1.
  cbv [mbind M_bind]. rewrite registerFlags_initial.
  cbv [flag_Parse mbind M_bind getFormal rd setVars os_Exit vars formal id
       trace deferred tickerQuit tickerLoop].
  destruct (parseArgs strconv_ParseInt registeredFlags args initialGlobals)
    as [[]|[g' rest]]; try discriminate.
  intros [= ->]. reflexivity.
Qed.


(** *** Validation of the configuration *)

(** C1. With both transports disabled the process panics with the
    validation message before it makes a single call: the trace of the
    run is empty, so no router handle, no local session and no listener
    is created, and nothing is acquired; this is the whole run of [main]
    on every command line that leaves such values in the variables. *)
Theorem no_transport_no_resource (g : Globals) :
  wsEnable g = false -> rsEnable g = false ->
  (events (runServe time_Format w g) = [] /\
   acquired (events (runServe time_Format w g)) = [] /\
   outcome (runServe time_Format w g) =
     Crashed (panic_string
       "one of WebSocket (-ws) or RawSocket (-rs) transports must be enabled")) /\
  (forall args,
     parsedGlobals strconv_ParseInt args = Some g ->
     main strconv_ParseInt time_Format w args =
       {| events := [];
          outcome := Crashed (panic_string
            "one of WebSocket (-ws) or RawSocket (-rs) transports must be enabled") |}).
Proof.
  intros Hws Hrs.
  assert (runServe time_Format w g =
            {| events := [];
               outcome := Crashed (panic_string
                 "one of WebSocket (-ws) or RawSocket (-rs) transports must be enabled") |})
    as Hrun.
  { destruct g as [r ws wh wp rs rh rp proto de dt]. simpl in Hws, Hrs.
    subst ws rs. reflexivity. }
  split.
  - rewrite Hrun. repeat split.
  - intros args Hargs. by rewrite (main_after_parse args g Hargs).
Qed.

(** *** Order of start-up *)

(** C4. Whenever a transport listener is constructed or started, a
    successful [ConnectLocal] occurs earlier in the trace; and in a run
    in which [ConnectLocal] returns an error no transport listener is
    constructed or started at all. *)
Theorem session_before_transports (g : Globals) :
  (forall pre ev post,
     events (runServe time_Format w g) = (pre ++ ev :: post)%list ->
     touchesTransport ev = true ->
     exists cfg, In (client_ConnectLocal cfg None) pre) /\
  (forall cfg err,
     In (client_ConnectLocal cfg (Some err)) (events (runServe time_Format w g)) ->
     forall ev, In ev (events (runServe time_Format w g)) ->
                touchesTransport ev = false).
Proof.
  split.
  - serve_paths g; intros pre ev post Hev Ht;
      destruct pre as [|p1 [|p2 pre]]; simplify_eq/=;
      try (eexists; right; left; reflexivity);
      do 4 (try (destruct pre as [|? pre]; simplify_eq/=)).
  - serve_paths g; intros cfg err Hin; in_trace Hin;
      intros ev He; in_trace He; subst; reflexivity.
Qed.

(** *** Configuration of the listeners *)

Lemma wsServer_options :
  router.EnableCompression wsServer = true /\
  (exists f, router.CheckOrigin wsServer = Some f /\ forall req, f req = true) /\
  router.EnableTrackingCookie wsServer = true /\
  router.wsKeepAlive wsServer = 30 * time.Second.
Proof. repeat split. eexists. split; [reflexivity|done]. Qed.

(** C8. Every [ListenAndServe] of the upgrade-based transport is made on
    a server with compression on, an origin check that accepts every
    request, the tracking cookie on and a keep-alive of 30 seconds; every
    [ListenAndServe] of the raw-socket transport is made on a server with
    a keep-alive of 30 seconds; and once the local session is established
    an enabled transport is started, at the address built from its host
    and port: the upgrade-based one always, on the server so configured,
    and the raw-socket one, on its server with the 30 second keep-alive
    and over the protocol [rsProto], whenever the upgrade-based one is
    disabled or its [ListenAndServe] returns no error. *)
Theorem listeners_configured (g : Globals) :
  (forall srv addr err,
     In (wsServer_ListenAndServe srv addr err) (events (runServe time_Format w g)) ->
     router.EnableCompression srv = true /\
     (exists f, router.CheckOrigin srv = Some f /\ forall req, f req = true) /\
     router.EnableTrackingCookie srv = true /\
     router.wsKeepAlive srv = 30 * time.Second) /\
  (forall srv network addr err,
     In (rsServer_ListenAndServe srv network addr err)
        (events (runServe time_Format w g)) ->
     router.rsKeepAlive srv = 30 * time.Second) /\
  (forall cfg,
     In (client_ConnectLocal cfg None) (events (runServe time_Format w g)) ->
     wsEnable g = true ->
     exists err,
       In (wsServer_ListenAndServe wsServer
             (Sprintf_addr (wsHost g) (wsPort g)) err)
          (events (runServe time_Format w g))) /\
  (forall cfg,
     In (client_ConnectLocal cfg None) (events (runServe time_Format w g)) ->
     rsEnable g = true ->
     wsEnable g = false \/
       wsListen_err w (Sprintf_addr (wsHost g) (wsPort g)) = None ->
     exists err,
       In (rsServer_ListenAndServe rsServer (rsProto g)
             (Sprintf_addr (rsHost g) (rsPort g)) err)
          (events (runServe time_Format w g))).
Proof.
  split; [|split; [|split]].
  - intros srv addr err.
    assert (In (wsServer_ListenAndServe srv addr err)
              (events (runServe time_Format w g)) -> srv = wsServer) as Hsrv.
    { serve_paths g; intros Hin; in_trace Hin; congruence. }
    intros Hin. rewrite (Hsrv Hin). exact wsServer_options.
  - intros srv network addr err.
    assert (In (rsServer_ListenAndServe srv network addr err)
              (events (runServe time_Format w g)) -> srv = rsServer) as Hsrv.
    { serve_paths g; intros Hin; in_trace Hin; congruence. }
    intros Hin. rewrite (Hsrv Hin). reflexivity.
  - serve_paths g; intros cfg Hin Hws; try discriminate Hws;
      try (in_trace Hin; fail);
      eexists; do 3 right; left; reflexivity.
  - serve_paths g; intros cfg Hin Hrs Hws; try discriminate Hrs;
      try (in_trace Hin; fail);
      try (destruct Hws as [Hws|Hws]; discriminate Hws);
      eexists; repeat first [left; reflexivity | right].
Qed.

(** *** The realm *)

(** C10. The router is created with exactly one realm, and the realm of
    the local session's configuration is that realm's URI: both are the
    value of the variable [realm]. *)
Theorem session_realm_is_router_realm (g : Globals) :
  forall rcfg rerr ccfg cerr,
    In (router_NewRouter rcfg rerr) (events (runServe time_Format w g)) ->
    In (client_ConnectLocal ccfg cerr) (events (runServe time_Format w g)) ->
    map router.URI (router.RealmConfigs rcfg) = [client.Realm ccfg] /\
    client.Realm ccfg = realm g.
Proof.
  serve_paths g; intros rcfg rerr ccfg cerr Hr Hc;
    in_trace Hr; in_trace Hc; simplify_eq; split; reflexivity.
Qed.

(** *** Failures during start-up *)

(** C5. In a run in which a [ListenAndServe] or the registration of the
    demo procedure returns an error, the process ends in a panic carrying
    an error, and the trace is the start-up calls followed by the release
    of everything they acquired, latest first: no release happens before
    the failure, and every listener started, the session and the router
    are closed before the process dies. *)
Theorem failed_start_releases (g : Globals) :
  (exists srv addr e,
     In (wsServer_ListenAndServe srv addr (Some e))
        (events (runServe time_Format w g))) \/
  (exists srv network addr e,
     In (rsServer_ListenAndServe srv network addr (Some e))
        (events (runServe time_Format w g))) \/
  (exists p h e,
     In (client_Register p h (Some e)) (events (runServe time_Format w g))) ->
  exists e pre,
    outcome (runServe time_Format w g) = Crashed (panic_error e) /\
    events (runServe time_Format w g)
      = (pre ++ map release (rev (acquired pre)))%list /\
    released pre = [] /\
    ~ In signal_Notify pre.
Proof.
  serve_paths g;
    (intros [(?srv & ?addr & ?e & Hin)
            |[(?srv & ?network & ?addr & ?e & Hin)
             |(?p & ?h & ?e & Hin)]]);
    in_trace Hin;
    match goal with
    | |- exists e pre, Crashed (panic_error ?x) = _ /\ ?L = _ /\ _ =>
        exists x,
          (List.filter
             (fun ev => match releases ev with None => true | Some _ => false end) L)
    end;
    (split; [reflexivity|split; [reflexivity|split; [reflexivity|]]]);
    cbn; intros Hn;
    repeat (destruct Hn as [Hn|Hn]; [discriminate Hn|]); exact Hn.
Qed.

(** *** The periodic publisher *)

(** C6. In a run with [devTime] set that gets as far as waiting for the
    shutdown signal, one ticker is created, with an interval of 5
    seconds, and the events published are exactly one per tick delivered,
    in order: each on the topic [dev.time], with empty options, a single
    positional argument (the instant [time.Now()] returned at that tick,
    formatted with the layout [time.RFC3339]) and no keyword arguments. *)
Theorem time_publisher (g : Globals) :
  devTime g = true ->
  In signal_Notify (events (runServe time_Format w g)) ->
  In (time_NewTicker (5 * time.Second)) (events (runServe time_Format w g)) /\
  (forall d, In (time_NewTicker d) (events (runServe time_Format w g)) ->
             d = 5 * time.Second) /\
  published (events (runServe time_Format w g)) =
    map (fun now =>
           ("dev.time", ∅, [wamp.VString (time_Format now time.RFC3339)], ∅))
        (ticks w).
Proof.
  serve_paths g; intros Hdt Hrun; try discriminate Hdt;
    try (in_trace Hrun; fail);
    (split; [|split]).
  all: try (intros d Hd; in_trace Hd; injection Hd as <-; reflexivity).
  all: try (change (time.Second * 5) with (5 * time.Second);
            cbn [In]; repeat first [left; reflexivity | right]; fail).
  all: pose proof (published_ticks (ticks w)) as Hp;
    unfold published in *; cbn [omap list_omap]; rewrite !omap_app, Hp;
    cbn; rewrite ?app_nil_r; reflexivity.
Qed.

(** *** The delayed echo *)

(** C3. The callback sleeps for 2 seconds before anything else, and the
    result it returns carries the positional and the keyword arguments of
    the invocation unchanged, with no error URI; and whenever [main]
    registers a procedure, it is this callback under the name
    [dev.echo]. *)
Theorem devEcho_returns_arguments (inv : wamp.Invocation) :
  (devEchoHandler inv).1 =
    [Sleep (2 * time.Second);
     FmtPrintf ("dev.echo %v %v" +:+ newline) (devEchoHandler inv).2
       (wamp.Details inv)] /\
  client.Args (devEchoHandler inv).2 = wamp.Arguments inv /\
  client.Kwargs (devEchoHandler inv).2 = wamp.ArgumentsKw inv /\
  client.Err (devEchoHandler inv).2 = EmptyString /\
  (forall g p h err,
     In (client_Register p h err) (events (runServe time_Format w g)) ->
     p = "dev.echo" /\ h = devEchoHandler).
Proof.
  do 4 (split; [reflexivity|]).
  intros g p h err.
  serve_paths g; intros Hin; in_trace Hin; split; congruence.
Qed.

(** *** Flags *)

Lemma parsedGlobals_parseArgs (args : list string) :
  parsedGlobals strconv_ParseInt args =
  match parseArgs strconv_ParseInt registeredFlags args initialGlobals with
  | inr (g, _) => Some g
  | inl _ => None
  end.
Proof.
  unfold parsedGlobals. cbv [mbind M_bind]. rewrite registerFlags_initial.
  cbv [flag_Parse mbind M_bind getFormal rd setVars os_Exit vars formal id
       trace deferred tickerQuit tickerLoop].
  destruct (parseArgs strconv_ParseInt registeredFlags args initialGlobals)
    as [[]|[g' rest]]; reflexivity.
Qed.

(** C7. With no arguments on the command line [flag.Parse()] leaves the
    documented defaults in the variables: realm [default], both
    transports enabled, the upgrade-based one at [localhost:8951], the
    raw-socket one at [127.0.0.1:8952] over [tcp], no delayed echo and no
    time publisher; and the process runs from these values. *)
Theorem defaults_without_flags :
  parsedGlobals strconv_ParseInt [] = Some documentedDefaults /\
  Sprintf_addr (wsHost documentedDefaults) (wsPort documentedDefaults)
    = "localhost:8951" /\
  Sprintf_addr (rsHost documentedDefaults) (rsPort documentedDefaults)
    = "127.0.0.1:8952" /\
  main strconv_ParseInt time_Format w [] =
    runServe time_Format w documentedDefaults.
Proof.
  assert (parsedGlobals strconv_ParseInt [] = Some documentedDefaults) as H.
  { rewrite parsedGlobals_parseArgs. reflexivity. }
  split; [exact H|].
  split; [vm_compute; reflexivity|].
  split; [vm_compute; reflexivity|].
  by apply main_after_parse.
Qed.

(** The only registered flag that writes to [realm] is named [default]. *)
Lemma realm_flag_name (name : string) (fl : flag.Flag) :
  registeredFlags !! name = Some fl ->
  flag.FValue fl = flag.stringValue p_realm ->
  name = "default".
Proof.
  intros Hl Hv.
  assert (Forall (fun '(n, f) =>
            flag.FValue f = flag.stringValue p_realm -> n = "default")
            (map_to_list registeredFlags)) as Hall.
  { vm_compute. repeat constructor; intros; (discriminate || reflexivity). }
  apply elem_of_map_to_list in Hl.
  rewrite Forall_forall in Hall. exact (Hall (name, fl) Hl Hv).
Qed.

Lemma storeString_realm p v g :
  p <> p_realm -> realm (storeString p v g) = realm g.
Proof. destruct p; simpl; congruence. Qed.

Lemma storeBool_realm p v g : realm (storeBool p v g) = realm g.
Proof. by destruct p. Qed.

Lemma storeInt_realm p v g : realm (storeInt p v g) = realm g.
Proof. by destruct p. Qed.

Lemma Set_value_realm v x g g' :
  Set_value strconv_ParseInt v x g = Some g' ->
  v <> flag.stringValue p_realm ->
  realm g' = realm g.
Proof.
  destruct v as [p|p|p]; unfold Set_value; simpl.
  - intros [= <-] Hp. apply storeString_realm. congruence.
  - destruct (flag.ParseBool x); simpl; [|done].
    intros [= <-] _. apply storeBool_realm.
  - destruct (strconv_ParseInt x); simpl; [|done].
    intros [= <-] _. apply storeInt_realm.
Qed.

#[local] Arguments Set_value : simpl never.

(** Parsing leaves [realm] alone unless an argument names the flag
    [default]. *)
Lemma parseArgs_realm (m : gmap string flag.Flag) :
  (forall name fl, m !! name = Some fl ->
     flag.FValue fl = flag.stringValue p_realm -> name = "default") ->
  forall n args g g' rest,
    (length args <= n)%nat ->
    parseArgs strconv_ParseInt m args g = inr (g', rest) ->
    realm g' = realm g \/
    exists a v, In a args /\ flag.tokenize a = flag.FlagToken "default" v.
Proof.
  intros Hm n. induction n as [|n IH]; intros args g g' rest Hlen.
  - destruct args; [|simpl in Hlen; lia]. simpl. intros [= <- _]. by left.
  - destruct args as [|s args]; simpl.
    { intros [= <- _]. by left. }
    simpl in Hlen.
    destruct (flag.tokenize s) as [| | |name value] eqn:Htok;
      try (intros [= <- _]; by left); try discriminate.
    destruct (m !! name) as [fl|] eqn:Hl; [|by case_match].
    destruct (decide (flag.FValue fl = flag.stringValue p_realm)) as [Hr|Hr].
    { intros _. right. exists s, value. split; [by left|].
      by rewrite (Hm _ _ Hl Hr) in Htok. }
    assert (forall args' g0,
              (length args' <= n)%nat ->
              realm g0 = realm g ->
              (forall a, In a args' -> In a (s :: args)) ->
              parseArgs strconv_ParseInt m args' g0 = inr (g', rest) ->
              realm g' = realm g \/
              exists a v, In a (s :: args) /\
                          flag.tokenize a = flag.FlagToken "default" v) as Hgo.
    { intros args' g0 Hl' Hg0 Hsub Hp.
      destruct (IH args' g0 g' rest Hl' Hp) as [->|(a & v & Ha & Ht)];
        [by left|right; eauto]. }
    destruct (flag.FValue fl) as [p|p|p] eqn:Hv.
    + assert (p <> p_realm) as Hp by congruence.
      destruct value as [x|].
      * apply Hgo; [lia|by apply storeString_realm|by right].
      * destruct args as [|x args']; [done|].
        apply Hgo; [simpl in Hlen; lia|by apply storeString_realm
                   |by intros a Ha; right; right].
    + destruct (flag.ParseBool _); [|done].
      apply Hgo; [lia|apply storeBool_realm|by right].
    + destruct value as [x|].
      * destruct (Set_value _ _ x g) as [g1|] eqn:Hs; [|done].
        apply Hgo; [lia|by eapply Set_value_realm|by right].
      * destruct args as [|x args']; [done|].
        destruct (Set_value _ _ x g) as [g1|] eqn:Hs; [|done].
        apply Hgo; [simpl in Hlen; lia|by eapply Set_value_realm
                   |by intros a Ha; right; right].
Qed.

(** C9. The flag that writes to [realm] is registered under the name
    [default], the value of the variable at registration: there is no
    flag named [realm], an argument [-realm] makes [flag.Parse()] exit
    with status 2, the argument pair [-default v] sets the realm to [v],
    and whenever parsing leaves a realm other than [default] in the
    variable, some argument is the flag [default] (written [-default] or
    [--default], alone or followed by [=value]). *)
Theorem realm_flag_is_named_default :
  registeredFlags !! "realm" = None /\
  registeredFlags !! "default" =
    Some {| flag.Name := "default"; flag.Usage := "Realm to be created";
            flag.FValue := flag.stringValue p_realm |} /\
  (forall v, outcome (main strconv_ParseInt time_Format w ["-realm"; v])
             = ExitedWith 2) /\
  (forall v, parsedGlobals strconv_ParseInt ["-default"; v]
             = Some (storeString p_realm v documentedDefaults)) /\
  (forall args g,
     parsedGlobals strconv_ParseInt args = Some g ->
     realm g <> "default" ->
     exists a v, In a args /\ flag.tokenize a = flag.FlagToken "default" v).
Proof.
  split; [vm_compute; reflexivity|].
  split; [vm_compute; reflexivity|].
  split; [intros v; vm_compute; reflexivity|].
  split; [intros v; rewrite parsedGlobals_parseArgs; vm_compute; reflexivity|].
  intros args g. rewrite parsedGlobals_parseArgs.
  destruct (parseArgs _ _ _ _) as [|[g' rest]] eqn:Hp; [done|].
  intros [= ->] Hne.
  destruct (parseArgs_realm registeredFlags realm_flag_name
              (length args) args initialGlobals g rest (le_n _) Hp)
    as [Hsame|Hex]; [|exact Hex].
  by rewrite Hsame in Hne.
Qed.

(** *** Shutdown *)

(** Nothing is ever sent on [tickerQuit], so no run stops the ticker. *)
Lemma ticker_never_stopped (g : Globals) :
  ~ In ticker_Stop (events (runServe time_Format w g)).
Proof. serve_paths g; intros Hin; in_trace Hin. Qed.

(** After the interrupt, the listeners, the session and the router are
    closed, latest first. *)
Lemma shutdown_closes_in_reverse (g : Globals) :
  In recv_shutdown (events (runServe time_Format w g)) ->
  outcome (runServe time_Format w g) = ExitedNormally /\
  released (events (runServe time_Format w g)) =
    rev (List.filter (fun r => negb (bool_decide (r = publisherTimer)))
           (acquired (events (runServe time_Format w g)))).
Proof.
  pose proof (acquired_ticks (ticks w)) as Ha.
  pose proof (released_ticks (ticks w)) as Hr.
  unfold acquired, released in *.
  serve_paths g; intros Hin; try (in_trace Hin; fail);
    (split; [reflexivity|]);
    cbn [omap list_omap acquires releases];
    rewrite ?omap_app, ?Ha, ?Hr; reflexivity.
Qed.

(** *** Failures before the transports *)

(** X1. When [router.NewRouter] returns an error the process panics with
    that error at once: the call is the whole trace, no session is
    attempted and nothing is closed. *)
Theorem router_creation_failure (g : Globals) (e : error) :
  wsEnable g || rsEnable g = true ->
  NewRouter_err w (routerConfigOf g) = Some e ->
  runServe time_Format w g =
    {| events := [router_NewRouter (routerConfigOf g) (Some e)];
       outcome := Crashed (panic_error e) |}.
Proof.
  unfold routerConfigOf.
  serve_paths g; intros Hen He; simplify_eq/=; reflexivity.
Qed.

(** X2. When [client.ConnectLocal] returns an error the process panics
    with that error after closing the router, and makes no other call. *)
Theorem session_failure_closes_router (g : Globals) (e : error) :
  wsEnable g || rsEnable g = true ->
  NewRouter_err w (routerConfigOf g) = None ->
  ConnectLocal_err w (clientConfigOf g) = Some e ->
  runServe time_Format w g =
    {| events := [router_NewRouter (routerConfigOf g) None;
                  client_ConnectLocal (clientConfigOf g) (Some e);
                  wsRouter_Close];
       outcome := Crashed (panic_error e) |}.
Proof.
  unfold routerConfigOf, clientConfigOf.
  serve_paths g; intros Hen Hr Hc; simplify_eq/=; reflexivity.
Qed.

(** *** Order of acquisition *)

(** X3. The resources are acquired in the order router, session,
    upgrade-based listener, raw-socket listener, ticker, each only if the
    configuration asks for it: what a run acquires is a prefix of that
    list, and the whole list once the run waits for the signal. *)
Theorem acquisition_order (g : Globals) :
  acquired (events (runServe time_Format w g)) `prefix_of` configuredOrder g /\
  (In signal_Notify (events (runServe time_Format w g)) ->
   acquired (events (runServe time_Format w g)) = configuredOrder g).
Proof.
  pose proof (acquired_ticks (ticks w)) as Ha.
  unfold acquired, configuredOrder in *.
  split.
  - serve_paths g;
      cbn [omap list_omap acquires]; rewrite ?omap_app, ?Ha;
      cbn; eexists; reflexivity.
  - serve_paths g; intros Hin; try (in_trace Hin; fail);
      cbn [omap list_omap acquires]; rewrite ?omap_app, ?Ha; reflexivity.
Qed.

(** *** Release of the resources *)

(** The paths of [serve] with the trace left as the calls of the body
    followed by the deferred calls. *)
Ltac serve_paths_deferred g :=
  destruct g as [?r [] ?wh ?wp [] ?rh ?rp ?proto [] []];
  unfold_serve; split_answers; rewrite ?readyCases_nil.

(** X4. A run that ends, by the interrupt or by a panic, is the calls of
    the body of [main], none of them a release, followed by the release
    of every closable resource they acquired, latest first; so each is
    released once, and the ticker, which has no deferred release, is the
    only resource left. *)
Theorem ended_run_is_balanced (g : Globals) :
  outcome (runServe time_Format w g) <> WaitsForever ->
  exists body,
    events (runServe time_Format w g)
      = (body ++ map release (rev (List.filter closable (acquired body))))%list /\
    released body = [].
Proof.
  pose proof (acquired_ticks (ticks w)) as Ha.
  pose proof (released_ticks (ticks w)) as Hr.
  unfold acquired, released in *.
  serve_paths_deferred g; intros Hend; try (by destruct Hend);
    match goal with
    | |- exists body, (?L ++ _)%list = _ /\ _ => exists L
    end;
    cbn [app omap list_omap acquires releases];
    rewrite ?omap_app, ?Ha, ?Hr; split; reflexivity.
Qed.

(** X5. Without an interrupt a router that got through start-up never
    exits and never closes anything. *)
Theorem no_interrupt_no_release (g : Globals) :
  interrupt w = false ->
  In signal_Notify (events (runServe time_Format w g)) ->
  outcome (runServe time_Format w g) = WaitsForever /\
  released (events (runServe time_Format w g)) = [].
Proof.
  pose proof (released_ticks (ticks w)) as Hr.
  unfold released in *.
  serve_paths g; intros Hint Hin; try discriminate Hint;
    try (in_trace Hin; fail);
    (split; [reflexivity|]);
    cbn [omap list_omap releases]; rewrite ?omap_app, ?Hr; reflexivity.
Qed.

(** Membership of a call that occurs in the explicit trace of a path. *)
Ltac is_member :=
  solve [ left; reflexivity
        | right; is_member
        | apply in_or_app; left; is_member
        | apply in_or_app; right; is_member ].

(** X6. The process exits normally exactly when the interrupt was
    received; [os.Exit] is never called after the flags are parsed; and a
    run that panics never got as far as waiting for the signal. *)
Theorem outcome_of_a_run (g : Globals) :
  (outcome (runServe time_Format w g) = ExitedNormally <->
   In recv_shutdown (events (runServe time_Format w g))) /\
  (forall code, outcome (runServe time_Format w g) <> ExitedWith code) /\
  (forall v, outcome (runServe time_Format w g) = Crashed v ->
             forall ev, In ev (events (runServe time_Format w g)) ->
                        ev <> signal_Notify /\ ev <> recv_shutdown).
Proof.
  split; [|split].
  - serve_paths g; (split; [intros Ho; try discriminate Ho|intros Hin]);
      try reflexivity; try (in_trace Hin; fail); is_member.
  - intros code. serve_paths g; discriminate.
  - intros v. serve_paths g; intros Ho; try discriminate Ho;
      intros ev Hin; in_trace Hin; subst ev; split; discriminate.
Qed.

(** *** What a configuration switches off *)

(** X7. A disabled transport is never touched: with [wsEnable] unset no
    upgrade-based server is constructed, started or closed, and likewise
    for [rsEnable] and the raw-socket server. *)
Theorem disabled_transport_untouched (g : Globals) :
  (wsEnable g = false ->
   forall ev, In ev (events (runServe time_Format w g)) -> isWsCall ev = false) /\
  (rsEnable g = false ->
   forall ev, In ev (events (runServe time_Format w g)) -> isRsCall ev = false).
Proof.
  split.
  - serve_paths g; intros Hoff; try discriminate Hoff;
      intros ev Hin; in_trace Hin; subst ev; reflexivity.
  - serve_paths g; intros Hoff; try discriminate Hoff;
      intros ev Hin; in_trace Hin; subst ev; reflexivity.
Qed.

(** X8. The demo workloads are off unless asked for: with [devEcho]
    unset nothing is registered, and with [devTime] unset no ticker is
    created, no goroutine is started and nothing is ever published. *)
Theorem demo_workloads_off (g : Globals) :
  (devEcho g = false ->
   forall ev, In ev (events (runServe time_Format w g)) -> isEchoCall ev = false) /\
  (devTime g = false ->
   (forall ev, In ev (events (runServe time_Format w g)) -> isTimeCall ev = false) /\
   published (events (runServe time_Format w g)) = []).
Proof.
  split.
  - serve_paths g; intros Hoff; try discriminate Hoff;
      intros ev Hin; in_trace Hin; subst ev; reflexivity.
  - serve_paths g; intros Hoff; try discriminate Hoff;
      (split; [intros ev Hin; in_trace Hin; subst ev; reflexivity|reflexivity]).
Qed.

(** *** Addresses and log lines *)

(** X9. Each transport is started at the address [host:port] built from
    its own variables, the raw-socket one over the protocol [rsProto]
    (the port is appended whatever the protocol is), and a successful
    start is followed immediately by its [listening on] line, which
    names that protocol and address. *)
Theorem listen_addresses_and_lines (g : Globals) :
  (forall srv addr err,
     In (wsServer_ListenAndServe srv addr err) (events (runServe time_Format w g)) ->
     addr = wsAddrOf g /\
     (err = None ->
      exists pre post,
        events (runServe time_Format w g) =
          (pre ++ wsServer_ListenAndServe srv addr None
               :: logger_Printf (wsListeningLine addr) :: post)%list)) /\
  (forall srv network addr err,
     In (rsServer_ListenAndServe srv network addr err)
        (events (runServe time_Format w g)) ->
     network = rsProto g /\ addr = rsAddrOf g /\
     (err = None ->
      exists pre post,
        events (runServe time_Format w g) =
          (pre ++ rsServer_ListenAndServe srv network addr None
               :: logger_Printf (rsListeningLine network addr) :: post)%list)).
Proof.
  unfold wsAddrOf, rsAddrOf, wsListeningLine, rsListeningLine.
  split.
  - intros srv addr err.
    serve_paths g; intros Hin; in_trace Hin; simplify_eq;
      (split; [reflexivity|]); intros Herr; try discriminate Herr;
      refine (ex_intro _ [_; _; _] (ex_intro _ _ eq_refl)).
  - intros srv network addr err.
    serve_paths g; intros Hin; in_trace Hin; simplify_eq;
      (split; [reflexivity|split; [reflexivity|]]);
      intros Herr; try discriminate Herr;
      first [ refine (ex_intro _ [_; _; _] (ex_intro _ _ eq_refl))
            | refine (ex_intro _ [_; _; _; _; _; _] (ex_intro _ _ eq_refl)) ].
Qed.

(** *** Panic values *)

(** X10. A panic of [main] carries either the validation message, when
    both transports are disabled, or the error of the library call that
    failed, unchanged for [NewRouter], [ConnectLocal] and the two
    [ListenAndServe], and wrapped as [failed to register "dev.echo": e]
    for the registration. *)
Theorem panic_values (g : Globals) (v : PanicValue) :
  outcome (runServe time_Format w g) = Crashed v ->
  (v = panic_string noTransportMessage /\
   wsEnable g = false /\ rsEnable g = false) \/
  (exists e,
     v = panic_error e /\
     (NewRouter_err w (routerConfigOf g) = Some e \/
      ConnectLocal_err w (clientConfigOf g) = Some e \/
      (wsEnable g = true /\ wsListen_err w (wsAddrOf g) = Some e) \/
      (rsEnable g = true /\ rsListen_err w (rsProto g) (rsAddrOf g) = Some e))) \/
  (exists e,
     devEcho g = true /\
     Register_err w "dev.echo" = Some e /\
     v = panic_error (registerFailure "dev.echo" e)).
Proof.
  unfold routerConfigOf, clientConfigOf, wsAddrOf, rsAddrOf, noTransportMessage,
    registerFailure.
  serve_paths g; intros Ho; try discriminate Ho; injection Ho as <-;
    first
      [ left; repeat split; reflexivity
      | right; right; eexists; split; [reflexivity|split; [reflexivity|reflexivity]]
      | right; left; eexists; split; [reflexivity|];
        first [ left; reflexivity
              | right; left; reflexivity
              | right; right; left; split; [reflexivity|reflexivity]
              | right; right; right; split; [reflexivity|reflexivity] ] ].
Qed.

(** *** The command line *)

(** X11. A command line that [flag.Parse()] rejects ends the process
    before any call to the router library: the trace is empty and the
    exit status is 0 or 2; [-h] and [-help], which are not registered,
    give status 0 whatever follows them. *)
Theorem rejected_command_line :
  (forall args,
     parsedGlobals strconv_ParseInt args = None ->
     events (main strconv_ParseInt time_Format w args) = [] /\
     (outcome (main strconv_ParseInt time_Format w args) = ExitedWith 0 \/
      outcome (main strconv_ParseInt time_Format w args) = ExitedWith 2)) /\
  (forall rest,
     main strconv_ParseInt time_Format w ("-h" :: rest) =
       {| events := []; outcome := ExitedWith 0 |} /\
     main strconv_ParseInt time_Format w ("-help" :: rest) =
       {| events := []; outcome := ExitedWith 0 |}).
Proof.
  assert (forall args,
            match parseArgs strconv_ParseInt registeredFlags args initialGlobals with
            | inl ErrHelp =>
                main strconv_ParseInt time_Format w args =
                  {| events := []; outcome := ExitedWith 0 |}
            | inl _ =>
                main strconv_ParseInt time_Format w args =
                  {| events := []; outcome := ExitedWith 2 |}
            | inr _ => True
            end) as Hmain.
  { intros args. unfold main, callMain. cbv [mbind M_bind].
    rewrite registerFlags_initial.
    cbv [flag_Parse mbind M_bind getFormal rd setVars os_Exit vars formal id
         trace deferred tickerQuit tickerLoop].
    destruct (parseArgs strconv_ParseInt registeredFlags args initialGlobals)
      as [[]|[g' rest]]; first [exact I | reflexivity]. }
  split.
  - intros args. rewrite parsedGlobals_parseArgs. intros Hnone.
    specialize (Hmain args).
    destruct (parseArgs strconv_ParseInt registeredFlags args initialGlobals)
      as [[]|[g' rest]]; try discriminate Hnone; rewrite Hmain; clear Hmain;
      (split; [reflexivity|]);
      first [left; reflexivity | right; reflexivity].
  - intros rest. split.
    + pose proof (Hmain ("-h" :: rest)) as H.
      assert (parseArgs strconv_ParseInt registeredFlags ("-h" :: rest)
                initialGlobals = inl ErrHelp) as Hp by (vm_compute; reflexivity).
      rewrite Hp in H. exact H.
    + pose proof (Hmain ("-help" :: rest)) as H.
      assert (parseArgs strconv_ParseInt registeredFlags ("-help" :: rest)
                initialGlobals = inl ErrHelp) as Hp by (vm_compute; reflexivity).
      rewrite Hp in H. exact H.
Qed.

(** X12. Each flag writes the variable it is documented for and no
    other: the string flags take any value, [-ws] and [-rs] switch a
    transport off with [=false], [-decho] and [-dtime] switch a demo
    workload on, and a port flag takes the integer [strconv.ParseInt]
    reads and makes [flag.Parse()] fail when it reads none. *)
Theorem flag_bindings :
  (forall v,
     parsedGlobals strconv_ParseInt ["-ws-host"; v]
       = Some (storeString p_wsHost v documentedDefaults) /\
     parsedGlobals strconv_ParseInt ["-rs-host"; v]
       = Some (storeString p_rsHost v documentedDefaults) /\
     parsedGlobals strconv_ParseInt ["-rs-proto"; v]
       = Some (storeString p_rsProto v documentedDefaults)) /\
  (parsedGlobals strconv_ParseInt ["-ws=false"]
     = Some (storeBool p_wsEnable false documentedDefaults) /\
   parsedGlobals strconv_ParseInt ["-rs=false"]
     = Some (storeBool p_rsEnable false documentedDefaults) /\
   parsedGlobals strconv_ParseInt ["-decho"]
     = Some (storeBool p_devEcho true documentedDefaults) /\
   parsedGlobals strconv_ParseInt ["-dtime"]
     = Some (storeBool p_devTime true documentedDefaults)) /\
  (forall v z,
     strconv_ParseInt v = Some z ->
     parsedGlobals strconv_ParseInt ["-ws-port"; v]
       = Some (storeInt p_wsPort z documentedDefaults) /\
     parsedGlobals strconv_ParseInt ["-rs-port"; v]
       = Some (storeInt p_rsPort z documentedDefaults)) /\
  (forall v,
     strconv_ParseInt v = None ->
     parsedGlobals strconv_ParseInt ["-ws-port"; v] = None /\
     parsedGlobals strconv_ParseInt ["-rs-port"; v] = None).
Proof.
  split; [|split; [|split]].
  - intros v. rewrite !parsedGlobals_parseArgs.
    repeat split; vm_compute; reflexivity.
  - rewrite !parsedGlobals_parseArgs. repeat split; vm_compute; reflexivity.
  - intros v z Hz. rewrite !parsedGlobals_parseArgs.
    split; vm_compute; rewrite Hz; reflexivity.
  - intros v Hz. rewrite !parsedGlobals_parseArgs.
    split; vm_compute; rewrite Hz; reflexivity.
Qed.

(** *** The goroutine and its ticker *)

(** X13. Once the goroutine receives from [tickerQuit] it stops the
    ticker and returns: the ticks served before that are published, one
    event each, and whatever becomes ready afterwards is not served. *)
Theorem goroutine_stops_on_quit (ts : list time.Time) (later : list Ready) :
  tickerGoroutine time_Format (map ticker_C ts ++ tickerQuit_recv :: later) =
    (tickerGoroutine time_Format (map ticker_C ts) ++ [ticker_Stop])%list /\
  published
    (tickerGoroutine time_Format (map ticker_C ts ++ tickerQuit_recv :: later)) =
    map (fun now =>
           ("dev.time", ∅, [wamp.VString (time_Format now time.RFC3339)], ∅))
        ts.
Proof.
  assert (tickerGoroutine time_Format (map ticker_C ts ++ tickerQuit_recv :: later) =
            (tickerGoroutine time_Format (map ticker_C ts) ++ [ticker_Stop])%list)
    as Heq.
  { induction ts as [|now ts IH]; [reflexivity|]. simpl. by rewrite IH. }
  split; [exact Heq|].
  rewrite Heq. unfold published. rewrite omap_app.
  pose proof (published_ticks ts) as Hp. unfold published in Hp. rewrite Hp.
  simpl. apply app_nil_r.
Qed.

(** X14. In no run of [main] is the ticker stopped: no call in the trace
    releases it, because nothing is ever sent on [tickerQuit]. *)
Theorem ticker_is_never_stopped (g : Globals) :
  forallb (fun ev => negb (bool_decide (releases ev = Some publisherTimer)))
          (events (runServe time_Format w g)) = true.
Proof.
  apply forallb_forall. intros ev Hin.
  assert (ev <> ticker_Stop) as Hne.
  { revert Hin. serve_paths g; intros Hin; in_trace Hin; subst ev; discriminate. }
  destruct ev; try reflexivity. by destruct Hne.
Qed.

(** *** Independence of the flags *)

Lemma Set_value_leavesAlone {A} (f : Globals -> A) v x g g' :
  leavesAlone f v ->
  Set_value strconv_ParseInt v x g = Some g' ->
  f g' = f g.
Proof.
  destruct v as [p|p|p]; unfold Set_value; simpl; intros Hf.
  - intros [= <-]. apply Hf.
  - destruct (flag.ParseBool x); simpl; [|discriminate].
    intros [= <-]. apply Hf.
  - destruct (strconv_ParseInt x); simpl; [|discriminate].
    intros [= <-]. apply Hf.
Qed.

(** Parsing changes what [f] reads only if an argument names a flag that
    can change it. *)
Lemma parseArgs_frame {A} (f : Globals -> A) (name0 : string)
    (m : gmap string flag.Flag) :
  (forall name fl, m !! name = Some fl -> name <> name0 ->
                   leavesAlone f (flag.FValue fl)) ->
  forall n args g g' rest,
    (length args <= n)%nat ->
    parseArgs strconv_ParseInt m args g = inr (g', rest) ->
    f g' = f g \/ namesFlag name0 args.
Proof.
  intros Hm n. induction n as [|n IH]; intros args g g' rest Hlen.
  - destruct args; [|simpl in Hlen; lia]. simpl. intros [= <- _]. left; reflexivity.
  - destruct args as [|s args]; simpl.
    { intros [= <- _]. left; reflexivity. }
    simpl in Hlen.
    destruct (flag.tokenize s) as [| | |name value] eqn:Htok;
      try (intros [= <- _]; left; reflexivity); try discriminate.
    destruct (m !! name) as [fl|] eqn:Hl; [|case_match; discriminate].
    destruct (decide (name = name0)) as [->|Hne].
    { intros _. right. exists s, value. split; [left; reflexivity|exact Htok]. }
    pose proof (Hm _ _ Hl Hne) as Hfl.
    assert (forall args' g0,
              (length args' <= n)%nat ->
              f g0 = f g ->
              (forall a, In a args' -> In a (s :: args)) ->
              parseArgs strconv_ParseInt m args' g0 = inr (g', rest) ->
              f g' = f g \/ namesFlag name0 (s :: args)) as Hgo.
    { intros args' g0 Hl' Hg0 Hsub Hp.
      destruct (IH args' g0 g' rest Hl' Hp) as [->|(a & v & Ha & Ht)];
        [left; exact Hg0|right; exists a, v; split; [apply Hsub, Ha|exact Ht]]. }
    destruct (flag.FValue fl) as [p|p|p] eqn:Hv.
    + destruct value as [x|].
      * apply Hgo; [lia|apply Hfl|intros a Ha; right; exact Ha].
      * destruct args as [|x args']; [discriminate|].
        apply Hgo; [simpl in Hlen; lia|apply Hfl
                   |intros a Ha; right; right; exact Ha].
    + destruct (flag.ParseBool _); [|discriminate].
      apply Hgo; [lia|apply Hfl|intros a Ha; right; exact Ha].
    + destruct value as [x|].
      * destruct (Set_value _ _ x g) as [g1|] eqn:Hs; [|discriminate].
        apply Hgo; [lia|eapply Set_value_leavesAlone; [exact Hfl|exact Hs]
                   |intros a Ha; right; exact Ha].
      * destruct args as [|x args']; [discriminate|].
        destruct (Set_value _ _ x g) as [g1|] eqn:Hs; [|discriminate].
        apply Hgo; [simpl in Hlen; lia
                   |eapply Set_value_leavesAlone; [exact Hfl|exact Hs]
                   |intros a Ha; right; right; exact Ha].
Qed.

Lemma registered_frame {A} (f : Globals -> A) (name0 : string) :
  Forall (fun nf => nf.1 <> name0 -> leavesAlone f (flag.FValue nf.2))
         (map_to_list registeredFlags) ->
  forall args g,
    parsedGlobals strconv_ParseInt args = Some g ->
    f g = f documentedDefaults \/ namesFlag name0 args.
Proof.
  intros Hall args g. rewrite parsedGlobals_parseArgs.
  destruct (parseArgs _ _ _ _) as [|[g' rest]] eqn:Hp; [discriminate|].
  intros [= ->].
  apply (parseArgs_frame f name0 registeredFlags) with (n := length args)
    in Hp; [exact Hp| |apply le_n].
  intros name fl Hl Hne. rewrite Forall_forall in Hall.
  apply (Hall (name, fl)); [by apply elem_of_map_to_list|exact Hne].
Qed.

(** Every registered flag but [name0] leaves [f] alone. *)
Ltac other_flags_leave_alone :=
  let l := eval vm_compute in (map_to_list registeredFlags) in
  assert (map_to_list registeredFlags = l) as -> by (vm_compute; reflexivity);
  repeat (apply List.Forall_cons;
          [cbn; intros Hne;
           first [exfalso; apply Hne; reflexivity | intros; reflexivity]|]);
  apply List.Forall_nil.

(** X15. Each variable is written by its own flag only: whenever the
    parsed command line leaves a value other than the default in a
    variable, some argument is the flag of that variable ([ws],
    [ws-host], [ws-port], [rs], [rs-host], [rs-port], [rs-proto],
    [decho], [dtime]). *)
Theorem flags_are_independent (args : list string) (g : Globals) :
  parsedGlobals strconv_ParseInt args = Some g ->
  (wsEnable g = false -> namesFlag "ws" args) /\
  (wsHost g <> "localhost" -> namesFlag "ws-host" args) /\
  (wsPort g <> 8951 -> namesFlag "ws-port" args) /\
  (rsEnable g = false -> namesFlag "rs" args) /\
  (rsHost g <> "127.0.0.1" -> namesFlag "rs-host" args) /\
  (rsPort g <> 8952 -> namesFlag "rs-port" args) /\
  (rsProto g <> "tcp" -> namesFlag "rs-proto" args) /\
  (devEcho g = true -> namesFlag "decho" args) /\
  (devTime g = true -> namesFlag "dtime" args).
Proof.
  intros Hp.
  repeat split; intros Hv.
  - destruct (registered_frame wsEnable "ws" ltac:(other_flags_leave_alone)
                args g Hp) as [Heq|Hn]; [|exact Hn].
    rewrite Hv in Heq. discriminate Heq.
  - destruct (registered_frame wsHost "ws-host" ltac:(other_flags_leave_alone)
                args g Hp) as [Heq|Hn]; [|exact Hn].
    destruct (Hv Heq).
  - destruct (registered_frame wsPort "ws-port" ltac:(other_flags_leave_alone)
                args g Hp) as [Heq|Hn]; [|exact Hn].
    destruct (Hv Heq).
  - destruct (registered_frame rsEnable "rs" ltac:(other_flags_leave_alone)
                args g Hp) as [Heq|Hn]; [|exact Hn].
    rewrite Hv in Heq. discriminate Heq.
  - destruct (registered_frame rsHost "rs-host" ltac:(other_flags_leave_alone)
                args g Hp) as [Heq|Hn]; [|exact Hn].
    destruct (Hv Heq).
  - destruct (registered_frame rsPort "rs-port" ltac:(other_flags_leave_alone)
                args g Hp) as [Heq|Hn]; [|exact Hn].
    destruct (Hv Heq).
  - destruct (registered_frame rsProto "rs-proto" ltac:(other_flags_leave_alone)
                args g Hp) as [Heq|Hn]; [|exact Hn].
    destruct (Hv Heq).
  - destruct (registered_frame devEcho "decho" ltac:(other_flags_leave_alone)
                args g Hp) as [Heq|Hn]; [|exact Hn].
    rewrite Hv in Heq. discriminate Heq.
  - destruct (registered_frame devTime "dtime" ltac:(other_flags_leave_alone)
                args g Hp) as [Heq|Hn]; [|exact Hn].
    rewrite Hv in Heq. discriminate Heq.
Qed.

(** *** No double acquisition, no double release *)

(** X16. No resource is acquired twice and none is released twice in a
    run: there is one router, one local session, at most one listener of
    each kind and at most one ticker, and each deferred close runs
    once. *)
Theorem no_double_release (g : Globals) :
  NoDup (acquired (events (runServe time_Format w g))) /\
  NoDup (released (events (runServe time_Format w g))).
Proof.
  pose proof (acquired_ticks (ticks w)) as Ha.
  pose proof (released_ticks (ticks w)) as Hr.
  unfold acquired, released in *.
  split; serve_paths g;
    cbn [omap list_omap acquires releases]; rewrite ?omap_app, ?Ha, ?Hr;
    cbn [app omap list_omap acquires releases];
    apply (bool_decide_unpack _); vm_compute; exact I.
Qed.

End Properties.

(** *** The timer at shutdown *)

(** C2. The run of [main -dtime]: the process acquires the router, the
    session, both listeners and the ticker, receives the interrupt and
    exits normally, having closed the raw-socket listener, the
    upgrade-based listener, the session and the router in this order; the
    ticker is not among the resources released. *)
Theorem dtime_timer_is_never_released :
  outcome dtimeRun = ExitedNormally /\
  acquired (events dtimeRun) =
    [routerHandle; localSession; wsListener; rsListener; publisherTimer] /\
  released (events dtimeRun) =
    [rsListener; wsListener; localSession; routerHandle] /\
  existsb (fun ev => bool_decide (releases ev = Some publisherTimer))
          (events dtimeRun) = false.
Proof. vm_compute. repeat split. Qed.

(** *** The theorems at concrete runs *)

Ltac found := vm_compute; repeat first [left; reflexivity | right].

Lemma no_transport_no_resource_witness :
  (events (runServe epoch_Format (obligingWorld []) bothDisabled) = [] /\
   acquired (events (runServe epoch_Format (obligingWorld []) bothDisabled)) = [] /\
   outcome (runServe epoch_Format (obligingWorld []) bothDisabled) =
     Crashed (panic_string
       "one of WebSocket (-ws) or RawSocket (-rs) transports must be enabled")) /\
  main decimal_ParseInt epoch_Format (obligingWorld []) ["-ws=false"; "-rs=false"] =
    {| events := [];
       outcome := Crashed (panic_string
         "one of WebSocket (-ws) or RawSocket (-rs) transports must be enabled") |}.
Proof.
  destruct (no_transport_no_resource decimal_ParseInt epoch_Format
              (obligingWorld []) bothDisabled eq_refl eq_refl) as [Hrun Hmain].
  split; [exact Hrun|].
  apply Hmain. vm_compute. reflexivity.
Defined.

Lemma session_before_transports_witness :
  (exists cfg,
     In (client_ConnectLocal cfg None)
        (take 2 (events (runServe epoch_Format (obligingWorld []) documentedDefaults)))) /\
  touchesTransport wsRouter_Close = false.
Proof.
  split.
  - apply (proj1 (session_before_transports epoch_Format (obligingWorld [])
                    documentedDefaults)
             _ router_NewWebsocketServer
             (drop 3 (events (runServe epoch_Format (obligingWorld [])
                                documentedDefaults))));
      vm_compute; reflexivity.
  - apply (proj2 (session_before_transports epoch_Format sessionRejected
                    documentedDefaults)
             {| client.Realm := "default" |} "no such realm");
      found.
Defined.

Lemma listeners_configured_witness :
  (router.EnableCompression wsServer = true /\
   (exists f, router.CheckOrigin wsServer = Some f /\ forall req, f req = true) /\
   router.EnableTrackingCookie wsServer = true /\
   router.wsKeepAlive wsServer = 30 * time.Second) /\
  router.rsKeepAlive rsServer = 30 * time.Second /\
  (exists err,
     In (wsServer_ListenAndServe wsServer "localhost:8951" err)
        (events (runServe epoch_Format (obligingWorld []) documentedDefaults))) /\
  (exists err,
     In (rsServer_ListenAndServe rsServer "tcp" "127.0.0.1:8952" err)
        (events (runServe epoch_Format (obligingWorld []) documentedDefaults))).
Proof.
  pose proof (listeners_configured epoch_Format (obligingWorld [])
                documentedDefaults) as (Hws & Hrs & Hstart & Hstart_rs).
  split; [|split; [|split]].
  - apply (Hws wsServer "localhost:8951" None). found.
  - apply (Hrs rsServer "tcp" "127.0.0.1:8952" None). found.
  - apply (Hstart {| client.Realm := "default" |}); [found|reflexivity].
  - apply (Hstart_rs {| client.Realm := "default" |});
      [found|reflexivity|right; reflexivity].
Defined.

Lemma session_realm_is_router_realm_witness :
  map router.URI
    (router.RealmConfigs
       {| router.RealmConfigs :=
            [ {| router.URI := "default"; router.AnonymousAuth := true;
                 router.AllowDisclose := true |} ] |})
    = [client.Realm {| client.Realm := "default" |}] /\
  client.Realm {| client.Realm := "default" |} = realm documentedDefaults.
Proof.
  apply (session_realm_is_router_realm epoch_Format (obligingWorld [])
           documentedDefaults _ None _ None); found.
Defined.

Lemma failed_start_releases_witness :
  exists e pre,
    outcome (runServe epoch_Format rsPortTaken documentedDefaults)
      = Crashed (panic_error e) /\
    events (runServe epoch_Format rsPortTaken documentedDefaults)
      = (pre ++ map release (rev (acquired pre)))%list /\
    released pre = [] /\
    ~ In signal_Notify pre.
Proof.
  apply (failed_start_releases epoch_Format rsPortTaken documentedDefaults).
  right. left.
  exists rsServer, "tcp", "127.0.0.1:8952", "bind: address already in use".
  found.
Defined.

Lemma time_publisher_witness :
  In (time_NewTicker (5 * time.Second))
     (events (runServe epoch_Format (obligingWorld [noon]) demoEnabled)) /\
  (forall d,
     In (time_NewTicker d)
        (events (runServe epoch_Format (obligingWorld [noon]) demoEnabled)) ->
     d = 5 * time.Second) /\
  published (events (runServe epoch_Format (obligingWorld [noon]) demoEnabled)) =
    map (fun now =>
           ("dev.time", ∅, [wamp.VString (epoch_Format now time.RFC3339)], ∅))
        (ticks (obligingWorld [noon])).
Proof.
  apply (time_publisher epoch_Format (obligingWorld [noon]) demoEnabled);
    [reflexivity|found].
Defined.

Lemma devEcho_returns_arguments_witness :
  client.Args (devEchoHandler sampleInvocation).2 = [wamp.VInt 7; wamp.VString "x"] /\
  client.Kwargs (devEchoHandler sampleInvocation).2 = {["k" := wamp.VBool true]} /\
  ("dev.echo" = "dev.echo" /\ devEchoHandler = devEchoHandler).
Proof.
  destruct (devEcho_returns_arguments epoch_Format (obligingWorld [])
              sampleInvocation) as (_ & Hargs & Hkw & _ & Hreg).
  split; [exact Hargs|]. split; [exact Hkw|].
  apply (Hreg demoEnabled "dev.echo" devEchoHandler None). found.
Defined.

Lemma realm_flag_is_named_default_witness :
  exists a v,
    In a ["-default=prod"] /\ flag.tokenize a = flag.FlagToken "default" v.
Proof.
  apply (proj2 (proj2 (proj2 (proj2
           (realm_flag_is_named_default decimal_ParseInt epoch_Format
              (obligingWorld [])))))
           ["-default=prod"] (storeString p_realm "prod" documentedDefaults)).
  - vm_compute. reflexivity.
  - vm_compute. discriminate.
Defined.

(** *** The further theorems at concrete runs *)

Lemma router_creation_failure_witness :
  runServe epoch_Format routerRefused documentedDefaults =
    {| events := [router_NewRouter (routerConfigOf documentedDefaults)
                    (Some "invalid realm URI")];
       outcome := Crashed (panic_error "invalid realm URI") |}.
Proof.
  apply (router_creation_failure epoch_Format routerRefused documentedDefaults);
    reflexivity.
Defined.

Lemma session_failure_closes_router_witness :
  runServe epoch_Format sessionRejected documentedDefaults =
    {| events := [router_NewRouter (routerConfigOf documentedDefaults) None;
                  client_ConnectLocal (clientConfigOf documentedDefaults)
                    (Some "no such realm");
                  wsRouter_Close];
       outcome := Crashed (panic_error "no such realm") |}.
Proof.
  apply (session_failure_closes_router epoch_Format sessionRejected
           documentedDefaults); reflexivity.
Defined.

Lemma acquisition_order_witness :
  acquired (events (runServe epoch_Format (obligingWorld [noon]) demoEnabled))
    = configuredOrder demoEnabled.
Proof.
  apply (proj2 (acquisition_order epoch_Format (obligingWorld [noon]) demoEnabled)).
  found.
Defined.

Lemma ended_run_is_balanced_witness :
  exists body,
    events (runServe epoch_Format rsPortTaken documentedDefaults)
      = (body ++ map release (rev (List.filter closable (acquired body))))%list /\
    released body = [].
Proof.
  apply (ended_run_is_balanced epoch_Format rsPortTaken documentedDefaults).
  vm_compute. discriminate.
Defined.

Lemma no_interrupt_no_release_witness :
  outcome (runServe epoch_Format neverInterrupted demoEnabled) = WaitsForever /\
  released (events (runServe epoch_Format neverInterrupted demoEnabled)) = [].
Proof.
  apply (no_interrupt_no_release epoch_Format neverInterrupted demoEnabled);
    [reflexivity|found].
Defined.

Lemma outcome_of_a_run_witness :
  In recv_shutdown
     (events (runServe epoch_Format (obligingWorld []) documentedDefaults)) /\
  outcome (runServe epoch_Format (obligingWorld []) documentedDefaults)
    = ExitedNormally /\
  (wsRouter_Close <> signal_Notify /\ wsRouter_Close <> recv_shutdown).
Proof.
  destruct (outcome_of_a_run epoch_Format (obligingWorld []) documentedDefaults)
    as ([Hexit Hrecv] & _ & _).
  destruct (outcome_of_a_run epoch_Format sessionRejected documentedDefaults)
    as (_ & _ & Hcrash).
  split; [apply Hexit; vm_compute; reflexivity|].
  split; [apply Hrecv; found|].
  apply (Hcrash (panic_error "no such realm")); [vm_compute; reflexivity|found].
Defined.

Lemma disabled_transport_untouched_witness :
  isWsCall (rsServer_ListenAndServe rsServer "tcp" "127.0.0.1:8952" None) = false /\
  isRsCall (wsServer_ListenAndServe wsServer "localhost:8951" None) = false.
Proof.
  split.
  - apply (proj1 (disabled_transport_untouched epoch_Format (obligingWorld []) rsOnly));
      [reflexivity|found].
  - apply (proj2 (disabled_transport_untouched epoch_Format (obligingWorld []) wsOnly));
      [reflexivity|found].
Defined.

Lemma demo_workloads_off_witness :
  isEchoCall signal_Notify = false /\
  isTimeCall signal_Notify = false /\
  published (events (runServe epoch_Format (obligingWorld [noon]) documentedDefaults))
    = [].
Proof.
  destruct (demo_workloads_off epoch_Format (obligingWorld [noon]) documentedDefaults)
    as [Hecho Htime].
  split; [apply Hecho; [reflexivity|found]|].
  destruct (Htime eq_refl) as [Hcalls Hpub].
  split; [apply Hcalls; found|exact Hpub].
Defined.

Lemma listen_addresses_and_lines_witness :
  ("localhost:8951" = wsAddrOf documentedDefaults /\
   exists pre post,
     events (runServe epoch_Format (obligingWorld []) documentedDefaults) =
       (pre ++ wsServer_ListenAndServe wsServer "localhost:8951" None
            :: logger_Printf (wsListeningLine "localhost:8951") :: post)%list) /\
  ("tcp" = rsProto documentedDefaults /\
   "127.0.0.1:8952" = rsAddrOf documentedDefaults /\
   exists pre post,
     events (runServe epoch_Format (obligingWorld []) documentedDefaults) =
       (pre ++ rsServer_ListenAndServe rsServer "tcp" "127.0.0.1:8952" None
            :: logger_Printf (rsListeningLine "tcp" "127.0.0.1:8952") :: post)%list).
Proof.
  destruct (listen_addresses_and_lines epoch_Format (obligingWorld [])
              documentedDefaults) as [Hws Hrs].
  split.
  - destruct (Hws wsServer "localhost:8951" None) as [Haddr Hline]; [found|].
    split; [exact Haddr|exact (Hline eq_refl)].
  - destruct (Hrs rsServer "tcp" "127.0.0.1:8952" None)
      as (Hnet & Haddr & Hline); [found|].
    split; [exact Hnet|]. split; [exact Haddr|exact (Hline eq_refl)].
Defined.

Lemma panic_values_witness :
  (panic_error (registerFailure "dev.echo" "wamp.error.procedure_already_exists")
     = panic_string noTransportMessage /\
   wsEnable demoEnabled = false /\ rsEnable demoEnabled = false) \/
  (exists e,
     panic_error (registerFailure "dev.echo" "wamp.error.procedure_already_exists")
       = panic_error e /\
     (NewRouter_err nameTaken (routerConfigOf demoEnabled) = Some e \/
      ConnectLocal_err nameTaken (clientConfigOf demoEnabled) = Some e \/
      (wsEnable demoEnabled = true /\
       wsListen_err nameTaken (wsAddrOf demoEnabled) = Some e) \/
      (rsEnable demoEnabled = true /\
       rsListen_err nameTaken (rsProto demoEnabled) (rsAddrOf demoEnabled) = Some e))) \/
  (exists e,
     devEcho demoEnabled = true /\
     Register_err nameTaken "dev.echo" = Some e /\
     panic_error (registerFailure "dev.echo" "wamp.error.procedure_already_exists")
       = panic_error (registerFailure "dev.echo" e)).
Proof.
  apply (panic_values epoch_Format nameTaken demoEnabled).
  vm_compute. reflexivity.
Defined.

Lemma rejected_command_line_witness :
  events (main decimal_ParseInt epoch_Format (obligingWorld []) ["-realm=prod"]) = [] /\
  (outcome (main decimal_ParseInt epoch_Format (obligingWorld []) ["-realm=prod"])
     = ExitedWith 0 \/
   outcome (main decimal_ParseInt epoch_Format (obligingWorld []) ["-realm=prod"])
     = ExitedWith 2).
Proof.
  apply (proj1 (rejected_command_line decimal_ParseInt epoch_Format (obligingWorld []))).
  vm_compute. reflexivity.
Defined.

Lemma flag_bindings_witness :
  (parsedGlobals decimal_ParseInt ["-ws-port"; "9000"]
     = Some (storeInt p_wsPort 9000 documentedDefaults) /\
   parsedGlobals decimal_ParseInt ["-rs-port"; "9000"]
     = Some (storeInt p_rsPort 9000 documentedDefaults)) /\
  (parsedGlobals decimal_ParseInt ["-ws-port"; "http"] = None /\
   parsedGlobals decimal_ParseInt ["-rs-port"; "http"] = None).
Proof.
  destruct (flag_bindings decimal_ParseInt) as (_ & _ & Hint & Hbad).
  split; [apply Hint|apply Hbad]; vm_compute; reflexivity.
Defined.

Lemma flags_are_independent_witness :
  namesFlag "ws" everyFlag /\ namesFlag "ws-host" everyFlag /\
  namesFlag "ws-port" everyFlag /\ namesFlag "rs" everyFlag /\
  namesFlag "rs-host" everyFlag /\ namesFlag "rs-port" everyFlag /\
  namesFlag "rs-proto" everyFlag /\ namesFlag "decho" everyFlag /\
  namesFlag "dtime" everyFlag.
Proof.
  destruct (flags_are_independent decimal_ParseInt everyFlag everyFlagGlobals)
    as (H1 & H2 & H3 & H4 & H5 & H6 & H7 & H8 & H9);
    [vm_compute; reflexivity|].
  split; [apply H1; reflexivity|].
  split; [apply H2; vm_compute; discriminate|].
  split; [apply H3; vm_compute; discriminate|].
  split; [apply H4; reflexivity|].
  split; [apply H5; vm_compute; discriminate|].
  split; [apply H6; vm_compute; discriminate|].
  split; [apply H7; vm_compute; discriminate|].
  split; [apply H8; reflexivity|apply H9; reflexivity].
Defined.
